(** * The HTTP server bootstrap of package [api]: transport set-up, the
      middleware pipeline, the liveness interceptors and [Run].

    The development follows [http_server.go]: every Go function that a
    property below talks about has a definition of the same name here.
    Mutable state ([HTTPServer], the response writer, the mux) is passed
    explicitly; what the operating system, the network and the
    collaborating services answer is read from oracles. *)

From Stdlib Require Import ZArith.
From stdpp Require Import base gmap strings list.

Local Open Scope string_scope.
Local Open Scope Z_scope.
Local Open Scope list_scope.

(** ** Go values used throughout *)

(** A Go [error] value.  [fmt.Errorf] without a wrapping verb yields a
    leaf, [errutil.Wrapf] keeps its cause reachable for [errors.Is]. *)
Inductive error : Type :=
| ErrServerClosed
| Errorf (format : string) (args : list string)
| Wrapf (cause : error) (format : string) (args : list string)
| ErrExternal (msg : string).

#[global] Instance error_eq_dec : EqDecision error.
Proof.
  unfold EqDecision, Decision.
  decide equality; first [exact (decide (_ = _))].
Defined.

(** [errors.Is]: the error itself or one of its causes is the target. *)
Fixpoint errors_Is (err target : error) : bool :=
  bool_decide (err = target)
  || match err with
     | Wrapf cause _ _ => errors_Is cause target
     | _ => false
     end.

Module http.
Definition MethodGet : string := "GET".
Definition MethodHead : string := "HEAD".
Definition StatusUnauthorized : Z := 401.
Definition ErrServerClosed : error := ErrServerClosed.
End http.

(** Go's [!=] on strings. *)
Definition strne (a b : string) : bool := negb (String.eqb a b).

(** ** Package [setting] *)

Module setting.
(** Modelled from the spec: the transport selectors and the name of the
    development environment are constants of package [setting], whose
    declarations are not part of the sources at hand.  [Run] lists the
    four selectors as cases of one [switch], so they are pairwise
    distinct; nothing below uses more about them than that. *)
Definition HTTPScheme : string := "http".
Definition HTTPSScheme : string := "https".
Definition HTTP2Scheme : string := "h2".
Definition SocketScheme : string := "socket".
Definition Dev : string := "development".

(** The fields of [setting.Cfg] that the server reads. *)
Record Cfg : Type := {
  HTTPAddr : string;
  HTTPPort : string;
  Protocol : string;
  CertFile : string;
  KeyFile : string;
  SocketPath : string;
  ReadTimeout : Z;
  AppSubURL : string;
  ServeFromSubPath : bool;
  EnableGzip : bool;
  StaticRootPath : string;
  ImageUploadProvider : string;
  ImagesDir : string;
  EnforceDomain : bool;
  Env : string;
  MetricsEndpointEnabled : bool;
  MetricsEndpointBasicAuthUsername : string;
  MetricsEndpointBasicAuthPassword : string;
  AnonymousHideVersion : bool;
  BuildVersion : string;
  BuildCommit : string
}.
End setting.

(** ** Package [web]: request context and response writer *)

Record Request : Type := {
  Method : string;
  URLPath : string;
  (** what [req.BasicAuth()] yields: the credentials, when the request
      carries a well-formed Basic authorization header *)
  BasicAuth : option (string * string)
}.

(** Modelled from the spec: the response writer of package [web] is not
    part of the sources.  A response is "written" once it has a status;
    the first status stands; a write on a fresh response commits status
    200 first.  [wfail] is the error a write meets on a broken
    connection. *)
Record ResponseWriter : Type := {
  status : Z;
  header : gmap string string;
  body : string;
  wfail : option error
}.

Definition Written (rw : ResponseWriter) : bool := negb (status rw =? 0).

Definition WriteHeader (s : Z) (rw : ResponseWriter) : ResponseWriter :=
  if Written rw then rw
  else {| status := s; header := header rw; body := body rw; wfail := wfail rw |}.

Definition Write (b : string) (rw : ResponseWriter) : ResponseWriter * option error :=
  let rw := if Written rw then rw else WriteHeader 200 rw in
  match wfail rw with
  | Some e => (rw, Some e)
  | None =>
      ({| status := status rw; header := header rw;
          body := (body rw ++ b)%string; wfail := None |}, None)
  end.

Definition HeaderSet (k v : string) (rw : ResponseWriter) : ResponseWriter :=
  {| status := status rw; header := <[k := v]> (header rw);
     body := body rw; wfail := wfail rw |}.

(** What a handler does besides shaping the response. *)
Inductive Effect : Type :=
| LogError (msg : string) (err : error)
| PromHTTP.

Record Context : Type := {
  Req : Request;
  Resp : ResponseWriter;
  Effects : list Effect
}.

Definition withResp (f : ResponseWriter -> ResponseWriter) (c : Context) : Context :=
  {| Req := Req c; Resp := f (Resp c); Effects := Effects c |}.

Definition emit (e : Effect) (c : Context) : Context :=
  {| Req := Req c; Resp := Resp c; Effects := Effects c ++ [e] |}.

Definition Handler : Type := Context -> Context.

Definition setResp (rw : ResponseWriter) (c : Context) : Context :=
  withResp (fun _ => rw) c.

(** Options of [httpstatic.Static]. *)
Record StaticOptions : Type := {
  SkipLogging : bool;
  Prefix : string;
  AddHeaders : Handler
}.

(** The stages a mux can hold, in the vocabulary of
    [addMiddlewaresAndStaticRoutes].  A stage has no identity beyond its
    place in the list; the constructors only record where it came from. *)
Inductive Middleware : Type :=
| MRequestTracing
| MLogger
| MGziper
| MRecovery
| MStatic (dir : string) (opts : StaticOptions)
| MDefaultResponseHeaders
| MRenderer (dir : string)
| MHealthz
| MApiHealth
| MMetrics
| MContextHandler
| MOrgRedirect
| MLoadPermissions
| MValidateHostHeader
| MNoCacheHeader
| MCSPHeader
| MExtra (h : Handler).

Inductive RouteSource : Type :=
| RouteRegister
| AppPluginRoutes.

(** [web.Mux], as far as the server configures it. *)
Record Mux : Type := {
  handlers : list Middleware;
  urlPrefix : string;
  routes : list RouteSource;
  (** the stages guarding the not-found handler, once it is set *)
  notFound : option (list string)
}.

Definition web_New : Mux :=
  {| handlers := []; urlPrefix := ""; routes := []; notFound := None |}.

(** [m.Use] and [m.UseMiddleware]: either appends one stage to the
    handler list of the mux. *)
Definition Use (h : Middleware) (m : Mux) : Mux :=
  {| handlers := handlers m ++ [h]; urlPrefix := urlPrefix m;
     routes := routes m; notFound := notFound m |}.

Definition SetURLPrefix (p : string) (m : Mux) : Mux :=
  {| handlers := handlers m; urlPrefix := p;
     routes := routes m; notFound := notFound m |}.

Definition Register (r : RouteSource) (m : Mux) : Mux :=
  {| handlers := handlers m; urlPrefix := urlPrefix m;
     routes := routes m ++ [r]; notFound := notFound m |}.

Definition NotFound (guards : list string) (m : Mux) : Mux :=
  {| handlers := handlers m; urlPrefix := urlPrefix m;
     routes := routes m; notFound := Some guards |}.

(** ** Transport values *)

Module tls.
Definition VersionTLS12 : Z := 0x0303.

Inductive CipherSuite : Type :=
| TLS_RSA_WITH_AES_128_CBC_SHA
| TLS_RSA_WITH_AES_256_CBC_SHA
| TLS_RSA_WITH_AES_128_GCM_SHA256
| TLS_RSA_WITH_AES_256_GCM_SHA384
| TLS_AES_128_GCM_SHA256
| TLS_AES_256_GCM_SHA384
| TLS_CHACHA20_POLY1305_SHA256
| TLS_ECDHE_ECDSA_WITH_AES_256_CBC_SHA
| TLS_ECDHE_RSA_WITH_AES_128_CBC_SHA
| TLS_ECDHE_RSA_WITH_AES_256_CBC_SHA
| TLS_ECDHE_RSA_WITH_AES_128_GCM_SHA256
| TLS_ECDHE_ECDSA_WITH_AES_128_GCM_SHA256
| TLS_ECDHE_RSA_WITH_AES_256_GCM_SHA384
| TLS_ECDHE_ECDSA_WITH_AES_256_GCM_SHA384
| TLS_ECDHE_RSA_WITH_CHACHA20_POLY1305
| TLS_ECDHE_ECDSA_WITH_CHACHA20_POLY1305.

Record Config : Type := {
  MinVersion : Z;
  PreferServerCipherSuites : bool;
  CipherSuites : list CipherSuite;
  NextProtos : list string
}.
End tls.

Module net.
(** A bound endpoint: the network it is on and its address. *)
Record Listener : Type := {
  Network : string;
  Addr : string
}.

(** [net.JoinHostPort]: a host with a colon is taken for a literal
    IPv6 address and bracketed. *)
Definition JoinHostPort (host port : string) : string :=
  match String.index 0 ":" host with
  | Some _ => "[" ++ host ++ "]:" ++ port
  | None => host ++ ":" ++ port
  end%string.
End net.

Module strings.
Definition TrimPrefix (s p : string) : string :=
  if String.prefix p s
  then String.substring (String.length p) (String.length s - String.length p) s
  else s.

Definition HasSuffix (s x : string) : bool :=
  (String.length x <=? String.length s)%nat
  && String.eqb (String.substring (String.length s - String.length x) (String.length x) s) x.

Definition TrimSuffix (s x : string) : string :=
  if HasSuffix s x
  then String.substring 0 (String.length s - String.length x) s
  else s.
End strings.

Record http_Server : Type := {
  srvAddr : string;
  ReadTimeout : Z;
  TLSConfig : option tls.Config;
  (** [true] once [TLSNextProto] is a non-nil, empty map *)
  TLSNextProtoEmpty : bool
}.

(** ** The server and what it is wired to *)

(** The injected services and library entry points whose code is outside
    this file.  Each is an arbitrary function of what it is handed. *)
Record Collaborators : Type := {
  RequestTracing : Handler;
  Logger : Handler;
  Gziper : Handler;
  Recovery : Handler;
  Static : string -> StaticOptions -> Handler;
  AddDefaultResponseHeaders : Handler;
  Renderer : string -> Handler;
  ContextHandler_Middleware : Handler;
  OrgRedirect : Handler;
  LoadPermissionsMiddleware : Handler;
  ValidateHostHeader : Handler;
  HandleNoCacheHeader : Handler;
  AddCSPHeader : Handler;
  (** [promhttp.HandlerFor(...).ServeHTTP] *)
  promhttp_ServeHTTP : ResponseWriter -> Request -> ResponseWriter;
  (** [EncodePretty] of a [simplejson] object whose values are strings *)
  EncodePretty : gmap string string -> string + error;
  (** [hs.databaseHealthy], the liveness probe of the persistence layer *)
  databaseHealthy : Request -> bool;
  path_Join : string -> string -> string
}.

Record HTTPServer : Type := {
  web : Mux;
  httpSrv : option http_Server;
  middlewares : list Handler;
  Cfg : setting.Cfg;
  Listener : option net.Listener;
  deps : Collaborators
}.

Definition setWeb (m : Mux) (hs : HTTPServer) : HTTPServer :=
  {| web := m; httpSrv := httpSrv hs; middlewares := middlewares hs;
     Cfg := Cfg hs; Listener := Listener hs; deps := deps hs |}.

Definition setHttpSrv (s : http_Server) (hs : HTTPServer) : HTTPServer :=
  {| web := web hs; httpSrv := Some s; middlewares := middlewares hs;
     Cfg := Cfg hs; Listener := Listener hs; deps := deps hs |}.

Record ServerOptions : Type := {
  opts_Listener : option net.Listener
}.

(** [ProvideHTTPServer]: a fresh mux, no extra middleware yet, the
    listener of the options.  Registering the routes touches the route
    register only; [declareFixedRoles] may refuse. *)
Definition ProvideHTTPServer (opts : ServerOptions) (cfg : setting.Cfg)
    (d : Collaborators) (declareFixedRoles : option error) : HTTPServer + error :=
  let m := web_New in
  let hs := {| web := m; httpSrv := None; middlewares := []; Cfg := cfg;
               Listener := opts_Listener opts; deps := d |} in
  match declareFixedRoles with
  | Some err => inr err
  | None => inl hs
  end.

(** [AddMiddleware] *)
Definition AddMiddleware (middleware : Handler) (hs : HTTPServer) : HTTPServer :=
  {| web := web hs; httpSrv := httpSrv hs;
     middlewares := middlewares hs ++ [middleware];
     Cfg := Cfg hs; Listener := Listener hs; deps := deps hs |}.

(** ** The liveness interceptors *)

(** Modelled from the spec: [BasicAuthenticatedRequest] belongs to package
    [api] but its file is not among the sources.  The metrics endpoint
    "requires HTTP Basic authentication against configured credentials":
    the request must carry credentials, and both must equal the expected
    ones. *)
Definition BasicAuthenticatedRequest (req : Request) (expectedUser expectedPass : string) : bool :=
  match BasicAuth req with
  | None => false
  | Some (user, pass) => String.eqb user expectedUser && String.eqb pass expectedPass
  end.

Definition metricsEndpointBasicAuthEnabled (hs : HTTPServer) : bool :=
  strne (setting.MetricsEndpointBasicAuthUsername (Cfg hs)) ""
  && strne (setting.MetricsEndpointBasicAuthPassword (Cfg hs)) "".

Definition metricsEndpoint (hs : HTTPServer) (ctx : Context) : Context :=
  if negb (setting.MetricsEndpointEnabled (Cfg hs)) then ctx
  else if strne (Method (Req ctx)) http.MethodGet || strne (URLPath (Req ctx)) "/metrics"
  then ctx
  else if metricsEndpointBasicAuthEnabled hs
          && negb (BasicAuthenticatedRequest (Req ctx)
                     (setting.MetricsEndpointBasicAuthUsername (Cfg hs))
                     (setting.MetricsEndpointBasicAuthPassword (Cfg hs)))
  then withResp (WriteHeader http.StatusUnauthorized) ctx
  else
    let ctx := emit PromHTTP ctx in
    setResp (promhttp_ServeHTTP (deps hs) (Resp ctx) (Req ctx)) ctx.

(** [healthzHandler] always returns 200 - Ok if the web server is running. *)
Definition healthzHandler (hs : HTTPServer) (ctx : Context) : Context :=
  let notHeadOrGet :=
    strne (Method (Req ctx)) http.MethodGet && strne (Method (Req ctx)) http.MethodHead in
  if notHeadOrGet || strne (URLPath (Req ctx)) "/healthz" then ctx
  else
    let ctx := withResp (WriteHeader 200) ctx in
    let '(rw, err) := Write "Ok" (Resp ctx) in
    let ctx := setResp rw ctx in
    match err with
    | Some e => emit (LogError "could not write to response" e) ctx
    | None => ctx
    end.

(** The object [apiHealthHandler] encodes: [simplejson.New] and the
    [Set]s that follow, the last one depending on the probe. *)
Definition apiHealthData (hs : HTTPServer) (healthy : bool) : gmap string string :=
  let data : gmap string string := ∅ in
  let data := <["database" := "ok"]> data in
  let data :=
    if negb (setting.AnonymousHideVersion (Cfg hs))
    then <["commit" := setting.BuildCommit (Cfg hs)]>
           (<["version" := setting.BuildVersion (Cfg hs)]> data)
    else data in
  if negb healthy then <["database" := "failing"]> data else data.

(** [apiHealthHandler] returns ok if the web server is running and it can
    reach the database; if it cannot, the status is 503. *)
Definition apiHealthHandler (hs : HTTPServer) (ctx : Context) : Context :=
  let notHeadOrGet :=
    strne (Method (Req ctx)) http.MethodGet && strne (Method (Req ctx)) http.MethodHead in
  if notHeadOrGet || strne (URLPath (Req ctx)) "/api/health" then ctx
  else
    let healthy := databaseHealthy (deps hs) (Req ctx) in
    let data := apiHealthData hs healthy in
    let ctx :=
      if negb healthy
      then withResp (WriteHeader 503)
             (withResp (HeaderSet "Content-Type" "application/json; charset=UTF-8") ctx)
      else withResp (WriteHeader 200)
             (withResp (HeaderSet "Content-Type" "application/json; charset=UTF-8") ctx) in
    match EncodePretty (deps hs) data with
    | inr err => emit (LogError "Failed to encode data" err) ctx
    | inl dataBytes =>
        let '(rw, err) := Write dataBytes (Resp ctx) in
        let ctx := setResp rw ctx in
        match err with
        | Some e => emit (LogError "Failed to write to response" e) ctx
        | None => ctx
        end
    end.

(** ** Static mappings *)

(** The [headers] closure [mapStatic] ends up with. *)
Definition mapStatic_headers (hs : HTTPServer) (prefix : string) : Handler :=
  let headers : Handler :=
    withResp (HeaderSet "Cache-Control" "public, max-age=3600") in
  let headers : Handler :=
    if String.eqb prefix "public/build"
    then withResp (HeaderSet "Cache-Control" "public, max-age=31536000")
    else headers in
  let headers : Handler :=
    if String.eqb (setting.Env (Cfg hs)) setting.Dev
    then withResp (HeaderSet "Cache-Control" "max-age=0, must-revalidate, no-cache")
    else headers in
  headers.

Definition mapStatic (hs : HTTPServer) (m : Mux) (rootDir dir prefix : string) : Mux :=
  Use (MStatic (path_Join (deps hs) rootDir dir)
         {| SkipLogging := true; Prefix := prefix;
            AddHeaders := mapStatic_headers hs prefix |}) m.

(** ** Assembling the pipeline *)

Definition when (b : bool) (f : Mux -> Mux) (m : Mux) : Mux :=
  if b then f m else m.

Definition addMiddlewaresAndStaticRoutes (hs : HTTPServer) : HTTPServer :=
  let cfg := Cfg hs in
  let m := web hs in
  let m := Use MRequestTracing m in
  let m := Use MLogger m in
  let m := when (setting.EnableGzip cfg) (Use MGziper) m in
  let m := Use MRecovery m in
  let m := mapStatic hs m (setting.StaticRootPath cfg) "build" "public/build" in
  let m := mapStatic hs m (setting.StaticRootPath cfg) "" "public" in
  let m := mapStatic hs m (setting.StaticRootPath cfg) "robots.txt" "robots.txt" in
  let m := when (String.eqb (setting.ImageUploadProvider cfg) "local")
             (fun m => mapStatic hs m (setting.ImagesDir cfg) "" "/public/img/attachments") m in
  let m := Use MDefaultResponseHeaders m in
  let m := when (setting.ServeFromSubPath cfg && strne (setting.AppSubURL cfg) "")
             (SetURLPrefix (setting.AppSubURL cfg)) m in
  let m := Use (MRenderer (path_Join (deps hs) (setting.StaticRootPath cfg) "views")) m in
  (* These endpoints are used for monitoring the instance and should not
     be redirected or rejected. *)
  let m := Use MHealthz m in
  let m := Use MApiHealth m in
  let m := Use MMetrics m in
  let m := Use MContextHandler m in
  let m := Use MOrgRedirect m in
  let m := Use MLoadPermissions m in
  (* needs to be after context handler *)
  let m := when (setting.EnforceDomain cfg) (Use MValidateHostHeader) m in
  let m := Use MNoCacheHeader m in
  let m := Use MCSPHeader m in
  let m := fold_left (fun m mw => Use (MExtra mw) m) (middlewares hs) m in
  setWeb m hs.

Definition applyRoutes (hs : HTTPServer) : HTTPServer :=
  (* start with middlewares & static routes *)
  let hs := addMiddlewaresAndStaticRoutes hs in
  (* then add view routes & api routes *)
  let hs := setWeb (Register RouteRegister (web hs)) hs in
  (* then custom app proxy routes *)
  let hs := setWeb (Register AppPluginRoutes (web hs)) hs in
  (* lastly not found route *)
  setWeb (NotFound ["ReqSignedIn"] (web hs)) hs.

(** ** Running the chain *)

(** The handler a stage of the mux stands for. *)
Definition handle (hs : HTTPServer) (mw : Middleware) : Handler :=
  match mw with
  | MRequestTracing => RequestTracing (deps hs)
  | MLogger => Logger (deps hs)
  | MGziper => Gziper (deps hs)
  | MRecovery => Recovery (deps hs)
  | MStatic dir opts => Static (deps hs) dir opts
  | MDefaultResponseHeaders => AddDefaultResponseHeaders (deps hs)
  | MRenderer dir => Renderer (deps hs) dir
  | MHealthz => healthzHandler hs
  | MApiHealth => apiHealthHandler hs
  | MMetrics => metricsEndpoint hs
  | MContextHandler => ContextHandler_Middleware (deps hs)
  | MOrgRedirect => OrgRedirect (deps hs)
  | MLoadPermissions => LoadPermissionsMiddleware (deps hs)
  | MValidateHostHeader => ValidateHostHeader (deps hs)
  | MNoCacheHeader => HandleNoCacheHeader (deps hs)
  | MCSPHeader => AddCSPHeader (deps hs)
  | MExtra h => h
  end.

(** Modelled from the spec: how [web.Mux] drives its stages is not part of
    the sources.  The stages run in list order on the same context; when a
    stage "fully handles the request ... the chain short-circuits", that
    is, no later stage runs once the response is written.  Besides the
    final context the result lists the stages that were handed the
    request. *)
Fixpoint run (hs : HTTPServer) (ms : list Middleware) (c : Context)
  : Context * list Middleware :=
  match ms with
  | [] => (c, [])
  | mw :: rest =>
      let c' := handle hs mw c in
      if Written (Resp c') then (c', [mw])
      else let '(c'', seen) := run hs rest c' in (c'', mw :: seen)
  end.

(** Serving one request with the assembled pipeline. *)
Definition serveRequest (hs : HTTPServer) (c : Context) : Context * list Middleware :=
  run hs (handlers (web hs)) c.

(** ** [Run]: bringing the server up and down *)

Inductive StatResult : Type :=
| StatOk
| StatNotExist
| StatFailed (e : error).

Definition os_IsNotExist (r : StatResult) : bool :=
  match r with StatNotExist => true | _ => false end.

(** What the environment answers to the calls [Run] makes. *)
Record World : Type := {
  os_Stat : string -> StatResult;
  net_Listen : string -> string -> option error;
  net_ListenUnix : string -> option error;
  os_Chmod : string -> Z -> option error;
  (** the value [Serve] eventually returns: [None] is Go's [nil] *)
  http_Serve : net.Listener -> option error;
  http_ServeTLS : net.Listener -> string -> string -> option error;
  http_Shutdown : option error
}.

Inductive Level : Type := Debug | Info | Error.

(** The steps of the goroutine [Run] starts. *)
Inductive WatcherEvent : Type :=
| WCtxDone
| WShutdown
| WLog (lvl : Level) (msg : string)
| WWgDone.

(** The calls of [Run]'s own goroutine, in program order. *)
Inductive Event : Type :=
| EvStat (path : string)
| EvListen (network address : string)
| EvListenUnix (path : string)
| EvChmod (path : string) (mode : Z)
| EvLog (lvl : Level) (msg : string)
| EvWgAdd (n : Z)
| EvGo (body : list WatcherEvent)
| EvServe (l : net.Listener)
| EvServeTLS (l : net.Listener) (certFile keyFile : string)
| EvWgWait.

(** How a call of [Run] ends. *)
Inductive Exit : Type :=
| Return (err : option error)
| Panic (format : string) (args : list string).

Record RunState : Type := {
  srv : HTTPServer;
  trace : list Event
}.

(** State passing for [Run] and its helpers. *)
Definition M (A : Type) : Type := RunState -> A * RunState.

#[global] Instance M_ret : MRet M := fun A a s => (a, s).

#[global] Instance M_bind : MBind M :=
  fun A B k m s => let '(a, s') := m s in k a s'.

Definition ret {A} (a : A) : M A := mret a.

Definition this : M HTTPServer := fun s => (srv s, s).

Definition update (f : HTTPServer -> HTTPServer) : M unit :=
  fun s => (tt, {| srv := f (srv s); trace := trace s |}).

Definition event (e : Event) : M unit :=
  fun s => (tt, {| srv := srv s; trace := trace s ++ [e] |}).

Definition setTLS (c : tls.Config) (noNextProto : bool) (hs : HTTPServer) : HTTPServer :=
  match httpSrv hs with
  | None => hs
  | Some s =>
      setHttpSrv {| srvAddr := srvAddr s; ReadTimeout := ReadTimeout s;
                    TLSConfig := Some c;
                    TLSNextProtoEmpty := noNextProto || TLSNextProtoEmpty s |} hs
  end.

Definition stat (w : World) (path : string) : M StatResult :=
  event (EvStat path);; ret (os_Stat w path).

Import tls.

Definition configureHttps (w : World) : M (option error) :=
  hs ← this;
  let cfg := Cfg hs in
  if String.eqb (setting.CertFile cfg) "" then
    ret (Some (Errorf "cert_file cannot be empty when using HTTPS" []))
  else if String.eqb (setting.KeyFile cfg) "" then
    ret (Some (Errorf "cert_key cannot be empty when using HTTPS" []))
  else
    r ← stat w (setting.CertFile cfg);
    if os_IsNotExist r then
      ret (Some (Errorf "cannot find SSL cert_file at %q" [setting.CertFile cfg]))
    else
      r ← stat w (setting.KeyFile cfg);
      if os_IsNotExist r then
        ret (Some (Errorf "cannot find SSL key_file at %q" [setting.KeyFile cfg]))
      else
        let tlsCfg :=
          {| MinVersion := VersionTLS12;
             PreferServerCipherSuites := true;
             CipherSuites :=
               [ TLS_ECDHE_ECDSA_WITH_AES_128_GCM_SHA256;
                 TLS_ECDHE_RSA_WITH_AES_128_GCM_SHA256;
                 TLS_ECDHE_ECDSA_WITH_AES_256_GCM_SHA384;
                 TLS_ECDHE_RSA_WITH_AES_256_GCM_SHA384;
                 TLS_ECDHE_RSA_WITH_AES_128_CBC_SHA;
                 TLS_ECDHE_ECDSA_WITH_AES_256_CBC_SHA;
                 TLS_ECDHE_RSA_WITH_AES_256_CBC_SHA;
                 TLS_RSA_WITH_AES_128_GCM_SHA256;
                 TLS_RSA_WITH_AES_256_GCM_SHA384;
                 TLS_RSA_WITH_AES_128_CBC_SHA;
                 TLS_RSA_WITH_AES_256_CBC_SHA ];
             NextProtos := [] |} in
        update (setTLS tlsCfg true);;
        ret None.

Definition configureHttp2 (w : World) : M (option error) :=
  hs ← this;
  let cfg := Cfg hs in
  if String.eqb (setting.CertFile cfg) "" then
    ret (Some (Errorf "cert_file cannot be empty when using HTTP2" []))
  else if String.eqb (setting.KeyFile cfg) "" then
    ret (Some (Errorf "cert_key cannot be empty when using HTTP2" []))
  else
    r ← stat w (setting.CertFile cfg);
    if os_IsNotExist r then
      ret (Some (Errorf "cannot find SSL cert_file at %q" [setting.CertFile cfg]))
    else
      r ← stat w (setting.KeyFile cfg);
      if os_IsNotExist r then
        ret (Some (Errorf "cannot find SSL key_file at %q" [setting.KeyFile cfg]))
      else
        let tlsCfg :=
          {| MinVersion := VersionTLS12;
             PreferServerCipherSuites := true;
             CipherSuites :=
               [ TLS_CHACHA20_POLY1305_SHA256;
                 TLS_AES_128_GCM_SHA256;
                 TLS_AES_256_GCM_SHA384;
                 TLS_ECDHE_ECDSA_WITH_AES_128_GCM_SHA256;
                 TLS_ECDHE_RSA_WITH_AES_128_GCM_SHA256;
                 TLS_ECDHE_ECDSA_WITH_AES_256_GCM_SHA384;
                 TLS_ECDHE_RSA_WITH_AES_256_GCM_SHA384;
                 TLS_ECDHE_ECDSA_WITH_CHACHA20_POLY1305;
                 TLS_ECDHE_RSA_WITH_CHACHA20_POLY1305 ];
             NextProtos := ["h2"; "http/1.1"] |} in
        update (setTLS tlsCfg false);;
        ret None.

(** The mode [0660], in decimal. *)
Definition mode_0660 : Z := 6 * 64 + 6 * 8 + 0.

(** [hs.httpSrv.Addr]; [Run] sets [httpSrv] before it is read. *)
Definition srvAddrOf (hs : HTTPServer) : string :=
  match httpSrv hs with Some s => srvAddr s | None => "" end.

Definition getListener (w : World) : M (net.Listener + error) :=
  hs ← this;
  match Listener hs with
  | Some l => ret (inl l)
  | None =>
      let proto := setting.Protocol (Cfg hs) in
      if String.eqb proto setting.HTTPScheme
         || String.eqb proto setting.HTTPSScheme
         || String.eqb proto setting.HTTP2Scheme then
        event (EvListen "tcp" (srvAddrOf hs));;
        match net_Listen w "tcp" (srvAddrOf hs) with
        | Some err =>
            ret (inr (Wrapf err "failed to open listener on address %s" [srvAddrOf hs]))
        | None => ret (inl {| net.Network := "tcp"; net.Addr := srvAddrOf hs |})
        end
      else if String.eqb proto setting.SocketScheme then
        let path := setting.SocketPath (Cfg hs) in
        event (EvListenUnix path);;
        match net_ListenUnix w path with
        | Some err => ret (inr (Wrapf err "failed to open listener for socket %s" [path]))
        | None =>
            (* Make socket writable by group *)
            event (EvChmod path mode_0660);;
            match os_Chmod w path mode_0660 with
            | Some err => ret (inr (Wrapf err "failed to change socket permissions" []))
            | None => ret (inl {| net.Network := "unix"; net.Addr := path |})
            end
        end
      else
        event (EvLog Error "Invalid protocol");;
        ret (inr (Errorf "invalid protocol %q" [proto]))
  end.

(** The goroutine that handles shutdown once the server context is done:
    its deferred [wg.Done] comes last. *)
Definition shutdownWatcher (w : World) : list WatcherEvent :=
  [WCtxDone; WShutdown]
  ++ match http_Shutdown w with
     | Some _ => [WLog Error "Failed to shutdown server"]
     | None => []
     end
  ++ [WWgDone].

(** The second [switch] of [Run].  [Some exit] is a [return] or [panic]
    from inside it, [None] is control leaving the [switch]. *)
Definition serveSwitch (w : World) (listener : net.Listener) : M (option Exit) :=
  hs ← this;
  let cfg := Cfg hs in
  let proto := setting.Protocol cfg in
  if String.eqb proto setting.HTTPScheme || String.eqb proto setting.SocketScheme then
    event (EvServe listener);;
    match http_Serve w listener with
    | Some err =>
        if errors_Is err http.ErrServerClosed then
          event (EvLog Debug "server was shutdown gracefully");;
          ret (Some (Return None))
        else ret (Some (Return (Some err)))
    | None => ret None
    end
  else if String.eqb proto setting.HTTP2Scheme || String.eqb proto setting.HTTPSScheme then
    event (EvServeTLS listener (setting.CertFile cfg) (setting.KeyFile cfg));;
    match http_ServeTLS w listener (setting.CertFile cfg) (setting.KeyFile cfg) with
    | Some err =>
        if errors_Is err http.ErrServerClosed then
          event (EvLog Debug "server was shutdown gracefully");;
          ret (Some (Return None))
        else ret (Some (Return (Some err)))
    | None => ret None
    end
  else ret (Some (Panic "Unhandled protocol %q" [proto])).

Definition Run (w : World) : M Exit :=
  update applyRoutes;;
  hs ← this;
  let cfg := Cfg hs in
  (* Remove any square brackets enclosing IPv6 addresses, a format
     supported for backwards compatibility *)
  let host := strings.TrimSuffix (strings.TrimPrefix (setting.HTTPAddr cfg) "[") "]" in
  update (setHttpSrv {| srvAddr := net.JoinHostPort host (setting.HTTPPort cfg);
                        ReadTimeout := setting.ReadTimeout cfg;
                        TLSConfig := None;
                        TLSNextProtoEmpty := false |});;
  err ← (if String.eqb (setting.Protocol cfg) setting.HTTP2Scheme then configureHttp2 w
         else if String.eqb (setting.Protocol cfg) setting.HTTPSScheme then configureHttps w
         else ret None);
  match err with
  | Some e => ret (Return (Some e))
  | None =>
      r ← getListener w;
      match r with
      | inr e => ret (Return (Some e))
      | inl listener =>
          event (EvLog Info "HTTP Server Listen");;
          event (EvWgAdd 1);;
          (* handle http shutdown on server context done *)
          event (EvGo (shutdownWatcher w));;
          out ← serveSwitch w listener;
          match out with
          | Some exit => ret exit
          | None => event EvWgWait;; ret (Return None)
          end
      end
  end.

(** [hs.Run(ctx)] from a fresh trace: how the call ends, and what its
    goroutine did on the way. *)
Definition runServer (w : World) (hs : HTTPServer) : Exit * list Event :=
  let '(out, s) := Run w {| srv := hs; trace := [] |} in (out, trace s).

(** ** Reading a trace *)

Definition opensListener (e : Event) : bool :=
  match e with EvListen _ _ | EvListenUnix _ => true | _ => false end.

Definition servesOn (e : Event) : bool :=
  match e with EvServe _ | EvServeTLS _ _ _ => true | _ => false end.

Definition recognized (proto : string) : bool :=
  String.eqb proto setting.HTTPScheme || String.eqb proto setting.HTTPSScheme
  || String.eqb proto setting.HTTP2Scheme || String.eqb proto setting.SocketScheme.

Definition usesTLS (proto : string) : bool :=
  String.eqb proto setting.HTTP2Scheme || String.eqb proto setting.HTTPSScheme.

(** ** Sample values *)

Module Sample.
Definition cfg : setting.Cfg :=
  {| setting.HTTPAddr := "0.0.0.0"; setting.HTTPPort := "3000";
     setting.Protocol := setting.HTTPScheme;
     setting.CertFile := ""; setting.KeyFile := "";
     setting.SocketPath := "/tmp/grafana.sock"; setting.ReadTimeout := 0;
     setting.AppSubURL := ""; setting.ServeFromSubPath := false;
     setting.EnableGzip := false; setting.StaticRootPath := "public";
     setting.ImageUploadProvider := ""; setting.ImagesDir := "data/png";
     setting.EnforceDomain := false; setting.Env := "production";
     setting.MetricsEndpointEnabled := true;
     setting.MetricsEndpointBasicAuthUsername := "";
     setting.MetricsEndpointBasicAuthPassword := "";
     setting.AnonymousHideVersion := false;
     setting.BuildVersion := "8.4.0-pre"; setting.BuildCommit := "abc123" |}.

Definition withProtocol (p : string) (c : setting.Cfg) : setting.Cfg :=
  {| setting.HTTPAddr := setting.HTTPAddr c; setting.HTTPPort := setting.HTTPPort c;
     setting.Protocol := p;
     setting.CertFile := setting.CertFile c; setting.KeyFile := setting.KeyFile c;
     setting.SocketPath := setting.SocketPath c;
     setting.ReadTimeout := setting.ReadTimeout c;
     setting.AppSubURL := setting.AppSubURL c;
     setting.ServeFromSubPath := setting.ServeFromSubPath c;
     setting.EnableGzip := setting.EnableGzip c;
     setting.StaticRootPath := setting.StaticRootPath c;
     setting.ImageUploadProvider := setting.ImageUploadProvider c;
     setting.ImagesDir := setting.ImagesDir c;
     setting.EnforceDomain := setting.EnforceDomain c; setting.Env := setting.Env c;
     setting.MetricsEndpointEnabled := setting.MetricsEndpointEnabled c;
     setting.MetricsEndpointBasicAuthUsername := setting.MetricsEndpointBasicAuthUsername c;
     setting.MetricsEndpointBasicAuthPassword := setting.MetricsEndpointBasicAuthPassword c;
     setting.AnonymousHideVersion := setting.AnonymousHideVersion c;
     setting.BuildVersion := setting.BuildVersion c;
     setting.BuildCommit := setting.BuildCommit c |}.

Definition withFiles (cert key : string) (c : setting.Cfg) : setting.Cfg :=
  {| setting.HTTPAddr := setting.HTTPAddr c; setting.HTTPPort := setting.HTTPPort c;
     setting.Protocol := setting.Protocol c;
     setting.CertFile := cert; setting.KeyFile := key;
     setting.SocketPath := setting.SocketPath c;
     setting.ReadTimeout := setting.ReadTimeout c;
     setting.AppSubURL := setting.AppSubURL c;
     setting.ServeFromSubPath := setting.ServeFromSubPath c;
     setting.EnableGzip := setting.EnableGzip c;
     setting.StaticRootPath := setting.StaticRootPath c;
     setting.ImageUploadProvider := setting.ImageUploadProvider c;
     setting.ImagesDir := setting.ImagesDir c;
     setting.EnforceDomain := setting.EnforceDomain c; setting.Env := setting.Env c;
     setting.MetricsEndpointEnabled := setting.MetricsEndpointEnabled c;
     setting.MetricsEndpointBasicAuthUsername := setting.MetricsEndpointBasicAuthUsername c;
     setting.MetricsEndpointBasicAuthPassword := setting.MetricsEndpointBasicAuthPassword c;
     setting.AnonymousHideVersion := setting.AnonymousHideVersion c;
     setting.BuildVersion := setting.BuildVersion c;
     setting.BuildCommit := setting.BuildCommit c |}.

Definition withMetricsAuth (user pass : string) (c : setting.Cfg) : setting.Cfg :=
  {| setting.HTTPAddr := setting.HTTPAddr c; setting.HTTPPort := setting.HTTPPort c;
     setting.Protocol := setting.Protocol c;
     setting.CertFile := setting.CertFile c; setting.KeyFile := setting.KeyFile c;
     setting.SocketPath := setting.SocketPath c;
     setting.ReadTimeout := setting.ReadTimeout c;
     setting.AppSubURL := setting.AppSubURL c;
     setting.ServeFromSubPath := setting.ServeFromSubPath c;
     setting.EnableGzip := setting.EnableGzip c;
     setting.StaticRootPath := setting.StaticRootPath c;
     setting.ImageUploadProvider := setting.ImageUploadProvider c;
     setting.ImagesDir := setting.ImagesDir c;
     setting.EnforceDomain := setting.EnforceDomain c; setting.Env := setting.Env c;
     setting.MetricsEndpointEnabled := setting.MetricsEndpointEnabled c;
     setting.MetricsEndpointBasicAuthUsername := user;
     setting.MetricsEndpointBasicAuthPassword := pass;
     setting.AnonymousHideVersion := setting.AnonymousHideVersion c;
     setting.BuildVersion := setting.BuildVersion c;
     setting.BuildCommit := setting.BuildCommit c |}.

Definition withEnv (env : string) (c : setting.Cfg) : setting.Cfg :=
  {| setting.HTTPAddr := setting.HTTPAddr c; setting.HTTPPort := setting.HTTPPort c;
     setting.Protocol := setting.Protocol c;
     setting.CertFile := setting.CertFile c; setting.KeyFile := setting.KeyFile c;
     setting.SocketPath := setting.SocketPath c;
     setting.ReadTimeout := setting.ReadTimeout c;
     setting.AppSubURL := setting.AppSubURL c;
     setting.ServeFromSubPath := setting.ServeFromSubPath c;
     setting.EnableGzip := setting.EnableGzip c;
     setting.StaticRootPath := setting.StaticRootPath c;
     setting.ImageUploadProvider := setting.ImageUploadProvider c;
     setting.ImagesDir := setting.ImagesDir c;
     setting.EnforceDomain := setting.EnforceDomain c; setting.Env := env;
     setting.MetricsEndpointEnabled := setting.MetricsEndpointEnabled c;
     setting.MetricsEndpointBasicAuthUsername := setting.MetricsEndpointBasicAuthUsername c;
     setting.MetricsEndpointBasicAuthPassword := setting.MetricsEndpointBasicAuthPassword c;
     setting.AnonymousHideVersion := setting.AnonymousHideVersion c;
     setting.BuildVersion := setting.BuildVersion c;
     setting.BuildCommit := setting.BuildCommit c |}.

(** Collaborators that pass every request on untouched; the exposition
    handler answers 200 with a fixed payload and the encoder prints the
    database field only. *)
Definition passive : Collaborators :=
  {| RequestTracing := id; Logger := id; Gziper := id; Recovery := id;
     Static := fun _ _ => id; AddDefaultResponseHeaders := id;
     Renderer := fun _ => id; ContextHandler_Middleware := id;
     OrgRedirect := id; LoadPermissionsMiddleware := id;
     ValidateHostHeader := id; HandleNoCacheHeader := id; AddCSPHeader := id;
     promhttp_ServeHTTP := fun rw _ => fst (Write "# EOF" rw);
     EncodePretty := fun d => inl (default "" (d !! "database"));
     databaseHealthy := fun _ => true;
     path_Join := fun a b => (a ++ "/" ++ b)%string |}.

Definition server (c : setting.Cfg) : HTTPServer :=
  {| web := web_New; httpSrv := None; middlewares := []; Cfg := c;
     Listener := None; deps := passive |}.

(** A world where no file exists, every listen succeeds and the serve
    loop ends with the given value. *)
Definition world (served : option error) : World :=
  {| os_Stat := fun _ => StatNotExist;
     net_Listen := fun _ _ => None;
     net_ListenUnix := fun _ => None;
     os_Chmod := fun _ _ => None;
     http_Serve := fun _ => served;
     http_ServeTLS := fun _ _ _ => served;
     http_Shutdown := None |}.

Definition request (method path : string) : Context :=
  {| Req := {| Method := method; URLPath := path; BasicAuth := None |};
     Resp := {| status := 0; header := ∅; body := ""; wfail := None |};
     Effects := [] |}.
End Sample.

(** * Notions the properties are stated with *)

(** A request the two health interceptors answer: GET or HEAD. *)
Definition getOrHead (method : string) : Prop :=
  method = http.MethodGet ∨ method = http.MethodHead.

(** The content type [apiHealthHandler] sets on either branch. *)
Definition jsonContentType (rw : ResponseWriter) : ResponseWriter :=
  HeaderSet "Content-Type" "application/json; charset=UTF-8" rw.

(** The status [apiHealthHandler] commits, by the outcome of the probe. *)
Definition apiHealthStatus (healthy : bool) : Z := if healthy then 200 else 503.

Definition metricsUser (hs : HTTPServer) : string :=
  setting.MetricsEndpointBasicAuthUsername (Cfg hs).

Definition metricsPass (hs : HTTPServer) : string :=
  setting.MetricsEndpointBasicAuthPassword (Cfg hs).

(** The request is one the metrics stage answers. *)
Definition metricsRequest (hs : HTTPServer) (ctx : Context) : Prop :=
  setting.MetricsEndpointEnabled (Cfg hs) = true
  ∧ Method (Req ctx) = http.MethodGet
  ∧ URLPath (Req ctx) = "/metrics".

(** The context after the exposition handler has been called. *)
Definition exposed (hs : HTTPServer) (ctx : Context) : Context :=
  {| Req := Req ctx;
     Resp := promhttp_ServeHTTP (deps hs) (Resp ctx) (Req ctx);
     Effects := Effects ctx ++ [PromHTTP] |}.

(** The [Cache-Control] header of the response, if set. *)
Definition cacheControlOf (c : Context) : option string :=
  header (Resp c) !! "Cache-Control".

Definition isDev (hs : HTTPServer) : Prop := setting.Env (Cfg hs) = setting.Dev.

(** The mapping of the versioned build directory, as the pipeline holds it. *)
Definition buildMapping (hs : HTTPServer) : Middleware :=
  MStatic (path_Join (deps hs) (setting.StaticRootPath (Cfg hs)) "build")
    {| SkipLogging := true; Prefix := "public/build";
       AddHeaders := mapStatic_headers hs "public/build" |}.

(** The stages ahead of the liveness interceptors. *)
Definition frontStages (hs : HTTPServer) : list Middleware :=
  let cfg := Cfg hs in
  [MRequestTracing; MLogger]
  ++ (if setting.EnableGzip cfg then [MGziper] else [])
  ++ [MRecovery;
      MStatic (path_Join (deps hs) (setting.StaticRootPath cfg) "build")
        {| SkipLogging := true; Prefix := "public/build";
           AddHeaders := mapStatic_headers hs "public/build" |};
      MStatic (path_Join (deps hs) (setting.StaticRootPath cfg) "")
        {| SkipLogging := true; Prefix := "public";
           AddHeaders := mapStatic_headers hs "public" |};
      MStatic (path_Join (deps hs) (setting.StaticRootPath cfg) "robots.txt")
        {| SkipLogging := true; Prefix := "robots.txt";
           AddHeaders := mapStatic_headers hs "robots.txt" |}]
  ++ (if String.eqb (setting.ImageUploadProvider cfg) "local"
      then [MStatic (path_Join (deps hs) (setting.ImagesDir cfg) "")
              {| SkipLogging := true; Prefix := "/public/img/attachments";
                 AddHeaders := mapStatic_headers hs "/public/img/attachments" |}]
      else [])
  ++ [MDefaultResponseHeaders;
      MRenderer (path_Join (deps hs) (setting.StaticRootPath cfg) "views")].

Definition livenessStages : list Middleware := [MHealthz; MApiHealth; MMetrics].

(** The stages behind the liveness interceptors. *)
Definition backStages (hs : HTTPServer) : list Middleware :=
  [MContextHandler; MOrgRedirect; MLoadPermissions]
  ++ (if setting.EnforceDomain (Cfg hs) then [MValidateHostHeader] else [])
  ++ [MNoCacheHeader; MCSPHeader]
  ++ map MExtra (middlewares hs).

(** Stages registered behind the liveness interceptors: the context and
    authentication stage, the redirect, the permission loader and all that
    follows, extra middleware included. *)
Definition behindLiveness (mw : Middleware) : bool :=
  match mw with
  | MContextHandler | MOrgRedirect | MLoadPermissions | MValidateHostHeader
  | MNoCacheHeader | MCSPHeader | MExtra _ => true
  | _ => false
  end.

(** No stage in the list is one registered behind the interceptors. *)
Definition aheadOfAuth (seen : list Middleware) : Prop :=
  Forall (fun mw => behindLiveness mw = false) seen.

(** A handler that leaves method and path of the request as they are. *)
Definition keepsTarget (h : Handler) : Prop :=
  ∀ c, Method (Req (h c)) = Method (Req c) ∧ URLPath (Req (h c)) = URLPath (Req c).

(** The collaborators in front of the interceptors keep the target, and
    the exposition handler always writes a response. *)
Definition wellBehaved (d : Collaborators) : Prop :=
  keepsTarget (RequestTracing d) ∧ keepsTarget (Logger d) ∧ keepsTarget (Gziper d)
  ∧ keepsTarget (Recovery d) ∧ (∀ dir opts, keepsTarget (Static d dir opts))
  ∧ keepsTarget (AddDefaultResponseHeaders d) ∧ (∀ dir, keepsTarget (Renderer d dir))
  ∧ ∀ rw req, Written (promhttp_ServeHTTP d rw req) = true.

(** The request is one that a liveness interceptor answers. *)
Definition livenessRequest (hs : HTTPServer) (r : Request) : Prop :=
  (getOrHead (Method r) ∧ (URLPath r = "/healthz" ∨ URLPath r = "/api/health"))
  ∨ (setting.MetricsEndpointEnabled (Cfg hs) = true
     ∧ Method r = http.MethodGet ∧ URLPath r = "/metrics").

Definition isContextHandler (mw : Middleware) : bool :=
  match mw with MContextHandler => true | _ => false end.

Definition isLoadPermissions (mw : Middleware) : bool :=
  match mw with MLoadPermissions => true | _ => false end.

(** A certificate or key path that is empty, or for which [os.Stat]
    answers that the file does not exist: the one answer [os.IsNotExist]
    accepts.  A path whose look-up fails in any other way is not
    [missing]. *)
Definition missing (w : World) (path : string) : Prop :=
  path = "" ∨ os_Stat w path = StatNotExist.

Definition missingb (w : World) (path : string) : bool :=
  String.eqb path "" || os_IsNotExist (os_Stat w path).

(** An event that neither opens a listener nor serves on one. *)
Definition quiet (e : Event) : bool := negb (opensListener e) && negb (servesOn e).

(** What [Run] returns when its serve call ends with [err]. *)
Definition afterServe (err : error) : Exit :=
  Return (if errors_Is err http.ErrServerClosed then None else Some err).

(** ** The life cycle of [Run] *)

(** How far [Run]'s goroutine has got: still configuring, a Unix socket
    opened whose mode is yet to be set, a listener bound, the wait group
    armed, the watcher started, the serve call made, the barrier passed. *)
Inductive Phase : Type :=
| Configuring
| UnixOpened
| Bound
| Armed
| Watching
| Serving
| Joined.

(** The calls each phase admits.  Logging is admitted anywhere. *)
Definition step (p : Phase) (e : Event) : option Phase :=
  match e, p with
  | EvLog _ _, _ => Some p
  | EvStat _, Configuring => Some Configuring
  | EvListen _ _, Configuring => Some Bound
  | EvListenUnix _, Configuring => Some UnixOpened
  | EvChmod _ _, UnixOpened => Some Bound
  | EvWgAdd n, (Configuring | Bound) => if n =? 1 then Some Armed else None
  | EvGo _, Armed => Some Watching
  | EvServe _, Watching => Some Serving
  | EvServeTLS _ _ _, Watching => Some Serving
  | EvWgWait, Serving => Some Joined
  | _, _ => None
  end.

Fixpoint phaseAfter (p : Phase) (tr : list Event) : option Phase :=
  match tr with
  | [] => Some p
  | e :: tr => match step p e with
               | Some p' => phaseAfter p' tr
               | None => None
               end
  end.

(** How a call of [Run] may end in each phase. *)
Definition endsIn (p : Phase) (out : Exit) : Prop :=
  match p with
  | Configuring | UnixOpened | Bound => ∃ e, out = Return (Some e)
  | Armed => False
  | Watching => ∃ format args, out = Panic format args
  | Serving => ∃ err, out = afterServe err
  | Joined => out = Return None
  end.

(** The server [Run] leaves behind. *)
Definition runFinal (w : World) (hs : HTTPServer) : HTTPServer :=
  srv (Run w {| srv := hs; trace := [] |}).2.

(** The host part [Run] hands to [net.JoinHostPort]. *)
Definition hostOf (addr : string) : string :=
  strings.TrimSuffix (strings.TrimPrefix addr "[") "]".

(** The address [Run] gives the server. *)
Definition listenAddr (cfg : setting.Cfg) : string :=
  net.JoinHostPort (hostOf (setting.HTTPAddr cfg)) (setting.HTTPPort cfg).

(** An event that creates a socket or changes one. *)
Definition touchesSocket (e : Event) : bool :=
  match e with EvListen _ _ | EvListenUnix _ | EvChmod _ _ => true | _ => false end.

Definition isStat (e : Event) : bool :=
  match e with EvStat _ => true | _ => false end.

(** The listener a serve call is made on. *)
Definition servedOn (e : Event) : option net.Listener :=
  match e with
  | EvServe l | EvServeTLS l _ _ => Some l
  | _ => None
  end.

(** The name of the mode in the messages of [configureHttp2] and
    [configureHttps]. *)
Definition tlsModeName (proto : string) : string :=
  if String.eqb proto setting.HTTP2Scheme then "HTTP2" else "HTTPS".

Definition isGziper (mw : Middleware) : bool :=
  match mw with MGziper => true | _ => false end.

Definition isValidateHostHeader (mw : Middleware) : bool :=
  match mw with MValidateHostHeader => true | _ => false end.

(** The prefixes of the static mappings of a pipeline, in order. *)
Definition staticPrefixes (ms : list Middleware) : list string :=
  omap (fun mw => match mw with MStatic _ opts => Some (Prefix opts) | _ => None end) ms.

(** A response nothing has been written to, on a working connection. *)
Definition pristine (rw : ResponseWriter) : Prop :=
  status rw = 0 ∧ body rw = "" ∧ wfail rw = None.

(** A GET or HEAD for [/healthz] that nothing has answered yet. *)
Definition healthzPending (c : Context) : Prop :=
  getOrHead (Method (Req c)) ∧ URLPath (Req c) = "/healthz" ∧ pristine (Resp c).

(** A handler that leaves a pending [/healthz] request pending.  Nothing
    is asked of it on any other request: it may serve files, redirect or
    refuse as it likes; and on a [/healthz] request it may still set
    headers and have effects. *)
Definition handsOnHealthz (h : Handler) : Prop :=
  ∀ c, healthzPending c → healthzPending (h c).

(** ** More sample values *)

Module Fixture.
Definition listener : net.Listener :=
  {| net.Network := "tcp"; net.Addr := "127.0.0.1:41000" |}.

(** A server that was handed a listener, as a test harness does. *)
Definition serverOn (l : net.Listener) (c : setting.Cfg) : HTTPServer :=
  {| web := web_New; httpSrv := None; middlewares := []; Cfg := c;
     Listener := Some l; deps := Sample.passive |}.

(** A world where the given files exist, every listen succeeds, setting
    the socket mode fails when asked to, and serving ends with the given
    value. *)
Definition world (files : list string) (chmod : option error)
    (served : option error) : World :=
  {| os_Stat := fun p => if bool_decide (p ∈ files) then StatOk else StatNotExist;
     net_Listen := fun _ _ => None;
     net_ListenUnix := fun _ => None;
     os_Chmod := fun _ _ => chmod;
     http_Serve := fun _ => served;
     http_ServeTLS := fun _ _ _ => served;
     http_Shutdown := None |}.

Definition tlsCfg (proto : string) : setting.Cfg :=
  Sample.withFiles "/etc/grafana/tls.crt" "/etc/grafana/tls.key"
    (Sample.withProtocol proto Sample.cfg).

Definition withAddr (addr : string) (c : setting.Cfg) : setting.Cfg :=
  {| setting.HTTPAddr := addr; setting.HTTPPort := setting.HTTPPort c;
     setting.Protocol := setting.Protocol c;
     setting.CertFile := setting.CertFile c; setting.KeyFile := setting.KeyFile c;
     setting.SocketPath := setting.SocketPath c;
     setting.ReadTimeout := setting.ReadTimeout c;
     setting.AppSubURL := setting.AppSubURL c;
     setting.ServeFromSubPath := setting.ServeFromSubPath c;
     setting.EnableGzip := setting.EnableGzip c;
     setting.StaticRootPath := setting.StaticRootPath c;
     setting.ImageUploadProvider := setting.ImageUploadProvider c;
     setting.ImagesDir := setting.ImagesDir c;
     setting.EnforceDomain := setting.EnforceDomain c; setting.Env := setting.Env c;
     setting.MetricsEndpointEnabled := setting.MetricsEndpointEnabled c;
     setting.MetricsEndpointBasicAuthUsername := setting.MetricsEndpointBasicAuthUsername c;
     setting.MetricsEndpointBasicAuthPassword := setting.MetricsEndpointBasicAuthPassword c;
     setting.AnonymousHideVersion := setting.AnonymousHideVersion c;
     setting.BuildVersion := setting.BuildVersion c;
     setting.BuildCommit := setting.BuildCommit c |}.

(** Collaborators like the passive ones, with an encoder that refuses. *)
Definition brokenEncoder : Collaborators :=
  {| RequestTracing := id; Logger := id; Gziper := id; Recovery := id;
     Static := fun _ _ => id; AddDefaultResponseHeaders := id;
     Renderer := fun _ => id; ContextHandler_Middleware := id;
     OrgRedirect := id; LoadPermissionsMiddleware := id;
     ValidateHostHeader := id; HandleNoCacheHeader := id; AddCSPHeader := id;
     promhttp_ServeHTTP := fun rw _ => fst (Write "# EOF" rw);
     EncodePretty := fun _ => inr (ErrExternal "json: unsupported value");
     databaseHealthy := fun _ => false;
     path_Join := fun a b => (a ++ "/" ++ b)%string |}.

(** A world where looking up any path fails because a component of it is
    no directory, every listen succeeds and serving ends with the given
    value. *)
Definition notDirectory (served : option error) : World :=
  {| os_Stat := fun _ => StatFailed (ErrExternal "stat: not a directory");
     net_Listen := fun _ _ => None;
     net_ListenUnix := fun _ => None;
     os_Chmod := fun _ _ => None;
     http_Serve := fun _ => served;
     http_ServeTLS := fun _ _ _ => served;
     http_Shutdown := None |}.

(** The prefix of a static mapping with its leading slash. *)
Definition mountPoint (opts : StaticOptions) : string :=
  if String.prefix "/" (Prefix opts) then Prefix opts
  else ("/" ++ Prefix opts)%string.

(** A static stage that serves: a request by GET or HEAD for a path under
    the mapping's prefix gets the headers of the mapping and then the
    file, any other request is handed on. *)
Definition serveFiles (dir : string) (opts : StaticOptions) : Handler :=
  fun c =>
    if (String.eqb (Method (Req c)) http.MethodGet
        || String.eqb (Method (Req c)) http.MethodHead)
       && String.prefix (mountPoint opts) (URLPath (Req c))
    then
      let c := AddHeaders opts c in
      setResp (Write ("file under " ++ dir) (Resp c)).1 c
    else c.

(** Collaborators that take part in a request: the static stages serve
    files, the tracing, compression and default-header stages set
    headers. *)
Definition serving : Collaborators :=
  {| RequestTracing := withResp (HeaderSet "Trace-Id" "4bf92f3577b34da6");
     Logger := id; Gziper := withResp (HeaderSet "Vary" "Accept-Encoding");
     Recovery := id;
     Static := serveFiles;
     AddDefaultResponseHeaders := withResp (HeaderSet "X-Content-Type-Options" "nosniff");
     Renderer := fun _ => id; ContextHandler_Middleware := id;
     OrgRedirect := id; LoadPermissionsMiddleware := id;
     ValidateHostHeader := id; HandleNoCacheHeader := id; AddCSPHeader := id;
     promhttp_ServeHTTP := fun rw _ => fst (Write "# EOF" rw);
     EncodePretty := fun d => inl (default "" (d !! "database"));
     databaseHealthy := fun _ => true;
     path_Join := fun a b => (a ++ "/" ++ b)%string |}.

(** A configuration that switches every optional stage in front of the
    interceptors on: compression and locally stored image uploads. *)
Definition fullCfg : setting.Cfg :=
  {| setting.HTTPAddr := "0.0.0.0"; setting.HTTPPort := "3000";
     setting.Protocol := setting.HTTPScheme;
     setting.CertFile := ""; setting.KeyFile := "";
     setting.SocketPath := "/tmp/grafana.sock"; setting.ReadTimeout := 0;
     setting.AppSubURL := ""; setting.ServeFromSubPath := false;
     setting.EnableGzip := true; setting.StaticRootPath := "public";
     setting.ImageUploadProvider := "local"; setting.ImagesDir := "data/png";
     setting.EnforceDomain := true; setting.Env := "production";
     setting.MetricsEndpointEnabled := true;
     setting.MetricsEndpointBasicAuthUsername := "";
     setting.MetricsEndpointBasicAuthPassword := "";
     setting.AnonymousHideVersion := false;
     setting.BuildVersion := "8.4.0-pre"; setting.BuildCommit := "abc123" |}.

(** A server as [ProvideHTTPServer] leaves it, with these collaborators. *)
Definition servingServer : HTTPServer :=
  {| web := web_New; httpSrv := None; middlewares := [];
     Cfg := fullCfg; Listener := None; deps := serving |}.
End Fixture.

(** * Properties *)

(** ** String comparison *)

Lemma strne_false (a b : string) : strne a b = false ↔ a = b.
Proof.
  unfold strne. destruct (String.eqb_spec a b); simpl; split; congruence.
Qed.

Lemma strne_true (a b : string) : strne a b = true ↔ a ≠ b.
Proof.
  unfold strne. destruct (String.eqb_spec a b); simpl; split; congruence.
Qed.

Lemma strne_refl (a : string) : strne a a = false.
Proof. by apply strne_false. Qed.

Lemma notHeadOrGet_false (method : string) :
  strne method http.MethodGet && strne method http.MethodHead = false ↔ getOrHead method.
Proof.
  unfold getOrHead. rewrite andb_false_iff, !strne_false. tauto.
Qed.

Lemma notHeadOrGet_true (method : string) :
  strne method http.MethodGet && strne method http.MethodHead = true ↔ ¬ getOrHead method.
Proof.
  unfold getOrHead. rewrite andb_true_iff, !strne_true. tauto.
Qed.

(** ** The response writer *)

Lemma Written_false (rw : ResponseWriter) : Written rw = false ↔ status rw = 0.
Proof.
  unfold Written. rewrite negb_false_iff. apply Z.eqb_eq.
Qed.

Lemma Written_WriteHeader (s : Z) (rw : ResponseWriter) :
  s ≠ 0 → Written (WriteHeader s rw) = true.
Proof.
  intros Hs. unfold WriteHeader. destruct (Written rw) eqn:E; [done|].
  unfold Written; simpl. by apply negb_true_iff, Z.eqb_neq.
Qed.

Lemma WriteHeader_fresh (s : Z) (rw : ResponseWriter) :
  Written rw = false →
  WriteHeader s rw
  = {| status := s; header := header rw; body := body rw; wfail := wfail rw |}.
Proof. intros H. unfold WriteHeader. by rewrite H. Qed.

Lemma Written_Write (b : string) (rw : ResponseWriter) :
  Written (Write b rw).1 = true.
Proof.
  unfold Write. destruct (Written rw) eqn:E.
  - destruct (wfail rw); simpl; [done|]. exact E.
  - assert (Written (WriteHeader 200 rw) = true) as HW
      by (by apply Written_WriteHeader).
    destruct (wfail (WriteHeader 200 rw)); simpl; [done|]. exact HW.
Qed.

(** ** [/healthz] *)

Lemma healthzHandler_passthrough (hs : HTTPServer) (ctx : Context) :
  ¬ (getOrHead (Method (Req ctx)) ∧ URLPath (Req ctx) = "/healthz") →
  healthzHandler hs ctx = ctx.
Proof.
  intros Hno. unfold healthzHandler.
  destruct (strne (Method (Req ctx)) http.MethodGet
            && strne (Method (Req ctx)) http.MethodHead) eqn:Hm; simpl; [done|].
  destruct (strne (URLPath (Req ctx)) "/healthz") eqn:Hp; [done|].
  exfalso. apply Hno. split; [by apply notHeadOrGet_false | by apply strne_false].
Qed.

Lemma healthzHandler_match (hs : HTTPServer) (ctx : Context) :
  getOrHead (Method (Req ctx)) → URLPath (Req ctx) = "/healthz" →
  healthzHandler hs ctx
  = let rw := WriteHeader 200 (Resp ctx) in
    match wfail rw with
    | Some e => emit (LogError "could not write to response" e) (setResp rw ctx)
    | None =>
        setResp {| status := status rw; header := header rw;
                   body := (body rw ++ "Ok")%string; wfail := None |} ctx
    end.
Proof.
  intros Hm Hp. unfold healthzHandler.
  apply notHeadOrGet_false in Hm. rewrite Hm. apply strne_false in Hp. rewrite Hp.
  simpl. unfold Write.
  assert (Written (WriteHeader 200 (Resp ctx)) = true) as ->
    by (by apply Written_WriteHeader).
  by destruct (wfail (WriteHeader 200 (Resp ctx))).
Qed.

(** C5.  A GET or HEAD request for exactly [/healthz], reaching the
    handler with an unwritten response, is answered with status 200 and
    the body [Ok]; neither the request's credentials nor anything held by
    the server (the database probe included) enters the answer, which is
    the same for every server value.  For any other method or path the
    handler returns the context as it got it. *)
Theorem healthz_always_ok (hs : HTTPServer) (ctx : Context) :
  (getOrHead (Method (Req ctx)) → URLPath (Req ctx) = "/healthz" →
   Written (Resp ctx) = false →
   status (Resp (healthzHandler hs ctx)) = 200
   ∧ (wfail (Resp ctx) = None →
      healthzHandler hs ctx
      = setResp {| status := 200; header := header (Resp ctx);
                   body := (body (Resp ctx) ++ "Ok")%string; wfail := None |} ctx)
   ∧ ∀ hs', healthzHandler hs' ctx = healthzHandler hs ctx)
  ∧ (¬ (getOrHead (Method (Req ctx)) ∧ URLPath (Req ctx) = "/healthz") →
     healthzHandler hs ctx = ctx).
Proof.
  split; [|apply healthzHandler_passthrough].
  intros Hm Hp Hw. split; [|split].
  - rewrite healthzHandler_match by done. rewrite WriteHeader_fresh by done.
    simpl. by destruct (wfail (Resp ctx)).
  - intros Hf. rewrite healthzHandler_match by done.
    rewrite WriteHeader_fresh by done. simpl. by rewrite Hf.
  - intros hs'. by rewrite !healthzHandler_match.
Qed.

Lemma healthz_always_ok_witness :
  let ctx := Sample.request "HEAD" "/healthz" in
  status (Resp (healthzHandler (Sample.server Sample.cfg) ctx)) = 200
  ∧ body (Resp (healthzHandler (Sample.server Sample.cfg) ctx)) = "Ok"
  ∧ healthzHandler (Sample.server Sample.cfg) (Sample.request "POST" "/healthz")
    = Sample.request "POST" "/healthz".
Proof.
  intros ctx.
  destruct (healthz_always_ok (Sample.server Sample.cfg) ctx) as [Hyes _].
  destruct (healthz_always_ok (Sample.server Sample.cfg)
              (Sample.request "POST" "/healthz")) as [_ Hno].
  destruct Hyes as (Hs & Hb & _); [by right | reflexivity | reflexivity |].
  split; [exact Hs|]. split.
  - rewrite Hb by reflexivity. reflexivity.
  - apply Hno. intros [[H|H] _]; discriminate H.
Defined.

(** ** [/api/health] *)

Lemma apiHealthHandler_passthrough (hs : HTTPServer) (ctx : Context) :
  ¬ (getOrHead (Method (Req ctx)) ∧ URLPath (Req ctx) = "/api/health") →
  apiHealthHandler hs ctx = ctx.
Proof.
  intros Hno. unfold apiHealthHandler.
  destruct (strne (Method (Req ctx)) http.MethodGet
            && strne (Method (Req ctx)) http.MethodHead) eqn:Hm; simpl; [done|].
  destruct (strne (URLPath (Req ctx)) "/api/health") eqn:Hp; [done|].
  exfalso. apply Hno. split; [by apply notHeadOrGet_false | by apply strne_false].
Qed.

Lemma apiHealthHandler_match (hs : HTTPServer) (ctx : Context) :
  getOrHead (Method (Req ctx)) → URLPath (Req ctx) = "/api/health" →
  apiHealthHandler hs ctx
  = let healthy := databaseHealthy (deps hs) (Req ctx) in
    let ctx1 := withResp (WriteHeader (apiHealthStatus healthy))
                  (withResp jsonContentType ctx) in
    match EncodePretty (deps hs) (apiHealthData hs healthy) with
    | inr err => emit (LogError "Failed to encode data" err) ctx1
    | inl dataBytes =>
        match (Write dataBytes (Resp ctx1)).2 with
        | Some e => emit (LogError "Failed to write to response" e)
                      (setResp (Write dataBytes (Resp ctx1)).1 ctx1)
        | None => setResp (Write dataBytes (Resp ctx1)).1 ctx1
        end
    end.
Proof.
  intros Hm Hp. unfold apiHealthHandler.
  apply notHeadOrGet_false in Hm. rewrite Hm. apply strne_false in Hp. rewrite Hp.
  simpl. unfold apiHealthStatus, jsonContentType.
  destruct (databaseHealthy (deps hs) (Req ctx)); simpl;
    destruct (EncodePretty _ _); try done;
    by destruct (Write _ _) as [rw [e|]].
Qed.

Lemma apiHealthData_database (hs : HTTPServer) (healthy : bool) :
  apiHealthData hs healthy !! "database"
  = Some (if healthy then "ok" else "failing").
Proof.
  unfold apiHealthData.
  destruct healthy, (setting.AnonymousHideVersion (Cfg hs)); simpl;
    by simplify_map_eq.
Qed.

Lemma apiHealthData_version (hs : HTTPServer) (healthy : bool) :
  apiHealthData hs healthy !! "version"
  = if setting.AnonymousHideVersion (Cfg hs) then None
    else Some (setting.BuildVersion (Cfg hs)).
Proof.
  unfold apiHealthData.
  destruct healthy, (setting.AnonymousHideVersion (Cfg hs)); simpl;
    by simplify_map_eq.
Qed.

Lemma apiHealthData_commit (hs : HTTPServer) (healthy : bool) :
  apiHealthData hs healthy !! "commit"
  = if setting.AnonymousHideVersion (Cfg hs) then None
    else Some (setting.BuildCommit (Cfg hs)).
Proof.
  unfold apiHealthData.
  destruct healthy, (setting.AnonymousHideVersion (Cfg hs)); simpl;
    by simplify_map_eq.
Qed.

(** C6.  For a GET or HEAD request for exactly [/api/health] that reaches
    the handler with an unwritten response: the status is 200 when the
    liveness probe of the persistence layer succeeds and 503 when it
    fails; the object handed to the encoder has [database] set to [ok] in
    the first case and to [failing] in the second; it has [version] and
    [commit] (the build's) exactly when [AnonymousHideVersion] is off; and
    what the encoder makes of that object is the body, on a working
    connection.  A failing probe is reported, not logged as an error. *)
Theorem api_health_reports_database (hs : HTTPServer) (ctx : Context) :
  getOrHead (Method (Req ctx)) → URLPath (Req ctx) = "/api/health" →
  Written (Resp ctx) = false →
  let healthy := databaseHealthy (deps hs) (Req ctx) in
  let data := apiHealthData hs healthy in
  let ctx' := apiHealthHandler hs ctx in
  (healthy = true → status (Resp ctx') = 200 ∧ data !! "database" = Some "ok")
  ∧ (healthy = false → status (Resp ctx') = 503 ∧ data !! "database" = Some "failing")
  ∧ (is_Some (data !! "version") ↔ setting.AnonymousHideVersion (Cfg hs) = false)
  ∧ (is_Some (data !! "commit") ↔ setting.AnonymousHideVersion (Cfg hs) = false)
  ∧ (setting.AnonymousHideVersion (Cfg hs) = false →
     data !! "version" = Some (setting.BuildVersion (Cfg hs))
     ∧ data !! "commit" = Some (setting.BuildCommit (Cfg hs)))
  ∧ (∀ dataBytes, EncodePretty (deps hs) data = inl dataBytes →
     wfail (Resp ctx) = None →
     body (Resp ctx') = (body (Resp ctx) ++ dataBytes)%string
     ∧ Effects ctx' = Effects ctx).
Proof.
  intros Hm Hp Hw healthy data ctx'.
  assert (status (Resp ctx') = apiHealthStatus healthy) as Hst.
  { subst ctx'. rewrite apiHealthHandler_match by done. simpl.
    fold healthy. fold data.
    assert (Written (WriteHeader (apiHealthStatus healthy)
                       (jsonContentType (Resp ctx))) = true) as HW.
    { apply Written_WriteHeader. by destruct healthy. }
    assert (status (WriteHeader (apiHealthStatus healthy)
                      (jsonContentType (Resp ctx))) = apiHealthStatus healthy) as HS.
    { rewrite WriteHeader_fresh; [done|]. exact Hw. }
    destruct (EncodePretty (deps hs) data); simpl; [|exact HS].
    unfold Write. rewrite HW.
    destruct (wfail _); simpl; exact HS. }
  split; [|split; [|split; [|split; [|split]]]].
  - intros E. rewrite Hst. subst data. rewrite apiHealthData_database.
    by rewrite E.
  - intros E. rewrite Hst. subst data. rewrite apiHealthData_database.
    by rewrite E.
  - subst data. rewrite apiHealthData_version.
    destruct (setting.AnonymousHideVersion (Cfg hs)); split;
      first [done | by intros [? ?] | by eexists].
  - subst data. rewrite apiHealthData_commit.
    destruct (setting.AnonymousHideVersion (Cfg hs)); split;
      first [done | by intros [? ?] | by eexists].
  - intros E. subst data. rewrite apiHealthData_version, apiHealthData_commit.
    by rewrite E.
  - intros dataBytes Henc Hf. subst ctx'.
    rewrite apiHealthHandler_match by done. simpl.
    fold healthy. fold data. rewrite Henc. unfold Write. simpl.
    assert (Written (WriteHeader (apiHealthStatus healthy)
                       (jsonContentType (Resp ctx))) = true) as ->.
    { apply Written_WriteHeader. by destruct healthy. }
    rewrite WriteHeader_fresh by exact Hw. simpl. rewrite Hf. by simpl.
Qed.

Lemma api_health_reports_database_witness :
  let hs := Sample.server Sample.cfg in
  let ctx := Sample.request "GET" "/api/health" in
  status (Resp (apiHealthHandler hs ctx)) = 200
  ∧ apiHealthData hs true !! "database" = Some "ok"
  ∧ apiHealthData hs true !! "version" = Some "8.4.0-pre"
  ∧ body (Resp (apiHealthHandler hs ctx)) = "ok".
Proof.
  intros hs ctx.
  destruct (api_health_reports_database hs ctx)
    as (Hup & _ & _ & _ & Hver & Hbody);
    [by left | reflexivity | reflexivity |].
  destruct (Hup eq_refl) as [Hs Hd].
  destruct (Hver eq_refl) as [Hv _].
  destruct (Hbody "ok" eq_refl eq_refl) as [Hb _].
  repeat split; assumption.
Defined.

(** ** [/metrics] *)

Lemma BasicAuthenticatedRequest_true (req : Request) (user pass : string) :
  BasicAuthenticatedRequest req user pass = true ↔ BasicAuth req = Some (user, pass).
Proof.
  unfold BasicAuthenticatedRequest. destruct (BasicAuth req) as [[u p]|].
  - rewrite andb_true_iff, !String.eqb_eq. split; [intros [-> ->]; done|].
    intros [= -> ->]. done.
  - split; discriminate.
Qed.

Lemma BasicAuthenticatedRequest_false (req : Request) (user pass : string) :
  BasicAuthenticatedRequest req user pass = false ↔ BasicAuth req ≠ Some (user, pass).
Proof.
  rewrite <- BasicAuthenticatedRequest_true.
  destruct (BasicAuthenticatedRequest req user pass); split; congruence.
Qed.

Lemma metricsEndpointBasicAuthEnabled_true (hs : HTTPServer) :
  metricsEndpointBasicAuthEnabled hs = true ↔ metricsUser hs ≠ "" ∧ metricsPass hs ≠ "".
Proof.
  unfold metricsEndpointBasicAuthEnabled, metricsUser, metricsPass.
  by rewrite andb_true_iff, !strne_true.
Qed.

Lemma metricsEndpointBasicAuthEnabled_false (hs : HTTPServer) :
  metricsEndpointBasicAuthEnabled hs = false ↔ metricsUser hs = "" ∨ metricsPass hs = "".
Proof.
  unfold metricsEndpointBasicAuthEnabled, metricsUser, metricsPass.
  by rewrite andb_false_iff, !strne_false.
Qed.

Lemma metricsEndpoint_passthrough (hs : HTTPServer) (ctx : Context) :
  ¬ metricsRequest hs ctx → metricsEndpoint hs ctx = ctx.
Proof.
  intros Hno. unfold metricsEndpoint.
  destruct (setting.MetricsEndpointEnabled (Cfg hs)) eqn:He; simpl; [|done].
  destruct (strne (Method (Req ctx)) http.MethodGet) eqn:Hm; simpl; [done|].
  destruct (strne (URLPath (Req ctx)) "/metrics") eqn:Hp; [done|].
  exfalso. apply Hno. split; [done|]. split; by apply strne_false.
Qed.

Lemma metricsEndpoint_match (hs : HTTPServer) (ctx : Context) :
  metricsRequest hs ctx →
  metricsEndpoint hs ctx
  = if metricsEndpointBasicAuthEnabled hs
       && negb (BasicAuthenticatedRequest (Req ctx) (metricsUser hs) (metricsPass hs))
    then withResp (WriteHeader http.StatusUnauthorized) ctx
    else exposed hs ctx.
Proof.
  intros (He & Hm & Hp). unfold metricsEndpoint. rewrite He. simpl.
  apply strne_false in Hm, Hp. rewrite Hm, Hp. simpl. done.
Qed.

(** C7.  For a GET request for exactly [/metrics] while the endpoint is
    enabled: when basic authentication is in force and the request's
    credentials are missing or differ from the configured pair, the stage
    commits status 401, leaves the body as it was (empty on an unwritten
    response) and does not call the exposition handler; when the
    credentials are the configured pair, or basic authentication is not in
    force, the exposition handler is called and its response is the
    answer.  For any other method or path, or with the endpoint disabled,
    the stage returns the context as it got it. *)
Theorem metrics_endpoint_gate (hs : HTTPServer) (ctx : Context) :
  (metricsRequest hs ctx →
   (metricsEndpointBasicAuthEnabled hs = true →
    BasicAuth (Req ctx) ≠ Some (metricsUser hs, metricsPass hs) →
    Written (Resp ctx) = false →
    status (Resp (metricsEndpoint hs ctx)) = 401
    ∧ body (Resp (metricsEndpoint hs ctx)) = body (Resp ctx)
    ∧ Effects (metricsEndpoint hs ctx) = Effects ctx)
   ∧ (metricsEndpointBasicAuthEnabled hs = false
      ∨ BasicAuth (Req ctx) = Some (metricsUser hs, metricsPass hs) →
      metricsEndpoint hs ctx = exposed hs ctx))
  ∧ (¬ metricsRequest hs ctx → metricsEndpoint hs ctx = ctx).
Proof.
  split; [|apply metricsEndpoint_passthrough].
  intros Hreq. rewrite metricsEndpoint_match by done. split.
  - intros Hon Hbad Hw. rewrite Hon.
    apply BasicAuthenticatedRequest_false in Hbad. rewrite Hbad. simpl.
    by rewrite WriteHeader_fresh.
  - intros [Hoff|Hgood].
    + by rewrite Hoff.
    + apply BasicAuthenticatedRequest_true in Hgood. rewrite Hgood.
      by rewrite andb_false_r.
Qed.

Lemma metrics_endpoint_gate_witness :
  let hs := Sample.server (Sample.withMetricsAuth "prom" "s3cret" Sample.cfg) in
  let anon := Sample.request "GET" "/metrics" in
  status (Resp (metricsEndpoint hs anon)) = 401
  ∧ body (Resp (metricsEndpoint hs anon)) = ""
  ∧ Effects (metricsEndpoint hs anon) = []
  ∧ metricsEndpoint (Sample.server Sample.cfg) anon
    = exposed (Sample.server Sample.cfg) anon
  ∧ metricsEndpoint hs (Sample.request "POST" "/metrics")
    = Sample.request "POST" "/metrics".
Proof.
  intros hs anon.
  destruct (metrics_endpoint_gate hs anon) as [Hyes _].
  destruct (Hyes (conj eq_refl (conj eq_refl eq_refl))) as [H401 _].
  destruct (H401 eq_refl) as (Hs & Hb & He); [discriminate | reflexivity |].
  destruct (metrics_endpoint_gate (Sample.server Sample.cfg) anon) as [Hopen _].
  destruct (Hopen (conj eq_refl (conj eq_refl eq_refl))) as [_ Hexp].
  destruct (metrics_endpoint_gate hs (Sample.request "POST" "/metrics")) as [_ Hno].
  split; [exact Hs|]. split; [exact Hb|]. split; [exact He|]. split.
  - apply Hexp. by left.
  - apply Hno. intros (_ & H & _). discriminate H.
Defined.

(** C10.  Basic authentication on [/metrics] is enforced exactly when
    both the configured user name and the configured password are
    non-empty.  The test the stage makes is in force exactly then.  With
    both set, a GET for [/metrics] on an enabled endpoint whose
    credentials are missing or differ from the configured pair is
    refused: the exposition handler is not called, nothing is added to
    the body, and an unwritten response gets status 401; with the
    configured pair the exposition handler answers.  With either of them
    empty, and so with exactly one of them set, such a request gets the
    exposition handler whatever credentials it carries, none included. *)
Theorem metrics_basic_auth_needs_both (hs : HTTPServer) :
  (metricsEndpointBasicAuthEnabled hs = true
   ↔ metricsUser hs ≠ "" ∧ metricsPass hs ≠ "")
  ∧ (metricsUser hs ≠ "" ∧ metricsPass hs ≠ "" →
     ∀ ctx, metricsRequest hs ctx →
       (BasicAuth (Req ctx) ≠ Some (metricsUser hs, metricsPass hs) →
          Effects (metricsEndpoint hs ctx) = Effects ctx
          ∧ body (Resp (metricsEndpoint hs ctx)) = body (Resp ctx)
          ∧ (Written (Resp ctx) = false →
             status (Resp (metricsEndpoint hs ctx)) = http.StatusUnauthorized))
       ∧ (BasicAuth (Req ctx) = Some (metricsUser hs, metricsPass hs) →
          metricsEndpoint hs ctx = exposed hs ctx))
  ∧ (metricsUser hs = "" ∨ metricsPass hs = "" →
     ∀ ctx, metricsRequest hs ctx →
       metricsEndpoint hs ctx = exposed hs ctx
       ∧ PromHTTP ∈ Effects (metricsEndpoint hs ctx)).
Proof.
  split; [apply metricsEndpointBasicAuthEnabled_true|]. split.
  - intros Hboth ctx Hreq.
    apply metricsEndpointBasicAuthEnabled_true in Hboth.
    rewrite metricsEndpoint_match by exact Hreq. rewrite Hboth.
    cbn [andb]. split.
    + intros Hbad. apply BasicAuthenticatedRequest_false in Hbad.
      rewrite Hbad. cbn [negb].
      split; [reflexivity|]. split.
      * unfold withResp, WriteHeader. cbn [Resp].
        destruct (Written (Resp ctx)); reflexivity.
      * intros Hw. unfold withResp. cbn [Resp].
        rewrite WriteHeader_fresh by exact Hw. reflexivity.
    + intros Hgood. apply BasicAuthenticatedRequest_true in Hgood.
      rewrite Hgood. reflexivity.
  - intros Hone ctx Hreq.
    apply metricsEndpointBasicAuthEnabled_false in Hone.
    rewrite metricsEndpoint_match by exact Hreq. rewrite Hone.
    cbn [andb]. split; [reflexivity|].
    unfold exposed. cbn [Effects].
    apply elem_of_app. right. apply list_elem_of_here.
Qed.

Lemma metrics_basic_auth_needs_both_witness :
  let one := Sample.server (Sample.withMetricsAuth "prom" "" Sample.cfg) in
  let both := Sample.server (Sample.withMetricsAuth "prom" "s3cret" Sample.cfg) in
  let anon := Sample.request "GET" "/metrics" in
  (metricsEndpoint one anon = exposed one anon
   ∧ PromHTTP ∈ Effects (metricsEndpoint one anon))
  ∧ (Effects (metricsEndpoint both anon) = []
     ∧ body (Resp (metricsEndpoint both anon)) = ""
     ∧ status (Resp (metricsEndpoint both anon)) = 401).
Proof.
  intros one both anon. split.
  - destruct (metrics_basic_auth_needs_both one) as (_ & _ & Hone).
    apply Hone.
    + right. reflexivity.
    + split; [reflexivity|]. split; reflexivity.
  - destruct (metrics_basic_auth_needs_both both) as (_ & Hboth & _).
    assert (metricsUser both ≠ "" ∧ metricsPass both ≠ "") as Hset.
    { split; discriminate. }
    assert (metricsRequest both anon) as Hreq.
    { split; [reflexivity|]. split; reflexivity. }
    destruct (Hboth Hset anon Hreq) as (Hrefused & _).
    assert (BasicAuth (Req anon) ≠ Some (metricsUser both, metricsPass both)) as Hbad.
    { discriminate. }
    destruct (Hrefused Hbad) as (He & Hb & Hs).
    split; [exact He|]. split; [exact Hb|]. apply Hs. reflexivity.
Defined.

(** ** Static mappings *)

Lemma handlers_Use (mw : Middleware) (m : Mux) :
  handlers (Use mw m) = handlers m ++ [mw].
Proof. reflexivity. Qed.

Lemma handlers_when_Use (b : bool) (mw : Middleware) (m : Mux) :
  handlers (when b (Use mw) m) = handlers m ++ (if b then [mw] else []).
Proof. destruct b; simpl; [done|]. by rewrite app_nil_r. Qed.

Lemma handlers_when_SetURLPrefix (b : bool) (p : string) (m : Mux) :
  handlers (when b (SetURLPrefix p) m) = handlers m.
Proof. by destruct b. Qed.

Lemma handlers_extra (l : list Handler) (m : Mux) :
  handlers (fold_left (fun m mw => Use (MExtra mw) m) l m)
  = handlers m ++ map MExtra l.
Proof.
  revert m. induction l as [|h l IH]; intros m; simpl.
  - by rewrite app_nil_r.
  - rewrite IH, handlers_Use, <- app_assoc. done.
Qed.

Lemma mapStatic_headers_value (hs : HTTPServer) (prefix : string) (c : Context) :
  mapStatic_headers hs prefix c
  = withResp (HeaderSet "Cache-Control"
      (if String.eqb (setting.Env (Cfg hs)) setting.Dev
       then "max-age=0, must-revalidate, no-cache"
       else if String.eqb prefix "public/build"
            then "public, max-age=31536000"
            else "public, max-age=3600")) c.
Proof.
  unfold mapStatic_headers.
  by destruct (String.eqb (setting.Env (Cfg hs)) setting.Dev),
              (String.eqb prefix "public/build").
Qed.

Lemma cacheControlOf_set (v : string) (c : Context) :
  cacheControlOf (withResp (HeaderSet "Cache-Control" v) c) = Some v.
Proof. unfold cacheControlOf; simpl. apply lookup_insert_eq. Qed.

Lemma pipeline_shape (hs : HTTPServer) :
  handlers (web (addMiddlewaresAndStaticRoutes hs))
  = handlers (web hs) ++ frontStages hs ++ livenessStages ++ backStages hs.
Proof.
  unfold addMiddlewaresAndStaticRoutes, frontStages, backStages, livenessStages,
    mapStatic.
  cbn [web setWeb]. rewrite handlers_extra.
  destruct (setting.EnableGzip (Cfg hs)),
           (String.eqb (setting.ImageUploadProvider (Cfg hs)) "local"),
           (setting.ServeFromSubPath (Cfg hs) && strne (setting.AppSubURL (Cfg hs)) ""),
           (setting.EnforceDomain (Cfg hs));
    cbn [when Use SetURLPrefix handlers app];
    repeat rewrite <- app_assoc; reflexivity.
Qed.

(** C8.  [mapStatic] appends one static stage whose prefix is the given
    one and whose header hook sets [Cache-Control]: outside the
    development environment to the one-year value for the prefix
    [public/build] and to the one-hour value for every other prefix, and
    in the development environment to the cache-busting value for every
    prefix.  The hook is the same for all servers with the same
    environment, and the pipeline holds the [public/build] mapping. *)
Theorem static_cache_control (hs : HTTPServer) (m : Mux) (rootDir dir prefix : string) :
  ∃ opts,
    handlers (mapStatic hs m rootDir dir prefix)
    = handlers m ++ [MStatic (path_Join (deps hs) rootDir dir) opts]
    ∧ Prefix opts = prefix
    ∧ (∀ c, ¬ isDev hs → prefix = "public/build" →
         cacheControlOf (AddHeaders opts c) = Some "public, max-age=31536000")
    ∧ (∀ c, isDev hs →
         cacheControlOf (AddHeaders opts c) = Some "max-age=0, must-revalidate, no-cache")
    ∧ (∀ c, ¬ isDev hs → prefix ≠ "public/build" →
         cacheControlOf (AddHeaders opts c) = Some "public, max-age=3600")
    ∧ (∀ hs', setting.Env (Cfg hs') = setting.Env (Cfg hs) →
         mapStatic_headers hs' prefix = AddHeaders opts)
    ∧ buildMapping hs ∈ handlers (web (addMiddlewaresAndStaticRoutes hs)).
Proof.
  exists {| SkipLogging := true; Prefix := prefix;
            AddHeaders := mapStatic_headers hs prefix |}.
  cbn [Prefix AddHeaders]. split; [reflexivity|]. split; [reflexivity|].
  unfold isDev. split; [|split; [|split; [|split]]].
  - intros c Hd ->. rewrite mapStatic_headers_value.
    apply String.eqb_neq in Hd. rewrite Hd. simpl. apply cacheControlOf_set.
  - intros c Hd. rewrite mapStatic_headers_value.
    apply String.eqb_eq in Hd. rewrite Hd. apply cacheControlOf_set.
  - intros c Hd Hp. rewrite mapStatic_headers_value.
    apply String.eqb_neq in Hd, Hp. rewrite Hd, Hp. apply cacheControlOf_set.
  - intros hs' He. unfold mapStatic_headers. by rewrite He.
  - rewrite pipeline_shape. unfold frontStages, buildMapping.
    rewrite !elem_of_app. right. left. right. right. left.
    apply list_elem_of_further, list_elem_of_here.
Qed.

Lemma static_cache_control_witness :
  let prod := Sample.server Sample.cfg in
  let dev := Sample.server (Sample.withEnv "development" Sample.cfg) in
  let c := Sample.request "GET" "/public/build/app.js" in
  cacheControlOf (mapStatic_headers prod "public/build" c) = Some "public, max-age=31536000"
  ∧ cacheControlOf (mapStatic_headers dev "public/build" c)
    = Some "max-age=0, must-revalidate, no-cache"
  ∧ cacheControlOf (mapStatic_headers prod "public" c) = Some "public, max-age=3600".
Proof.
  intros prod dev c.
  destruct (static_cache_control prod web_New "public" "build" "public/build")
    as (o1 & _ & _ & Hyear & _ & _ & H1 & _).
  destruct (static_cache_control dev web_New "public" "build" "public/build")
    as (o2 & _ & _ & _ & Hdev & _ & H2 & _).
  destruct (static_cache_control prod web_New "public" "" "public")
    as (o3 & _ & _ & _ & _ & Hhour & H3 & _).
  rewrite (H1 prod eq_refl), (H2 dev eq_refl), (H3 prod eq_refl).
  split; [apply Hyear; [discriminate | reflexivity]|].
  split; [apply Hdev; reflexivity|].
  apply Hhour; discriminate.
Defined.

(** ** Order of the pipeline *)

Lemma healthzHandler_written (hs : HTTPServer) (c : Context) :
  getOrHead (Method (Req c)) → URLPath (Req c) = "/healthz" →
  Written (Resp (healthzHandler hs c)) = true.
Proof.
  intros Hm Hp. rewrite healthzHandler_match by done. simpl.
  assert (Written (WriteHeader 200 (Resp c)) = true) as HW
    by (by apply Written_WriteHeader).
  destruct (wfail (WriteHeader 200 (Resp c))); simpl; exact HW.
Qed.

Lemma apiHealthHandler_written (hs : HTTPServer) (c : Context) :
  getOrHead (Method (Req c)) → URLPath (Req c) = "/api/health" →
  Written (Resp (apiHealthHandler hs c)) = true.
Proof.
  intros Hm Hp. rewrite apiHealthHandler_match by done. simpl.
  assert (Written (WriteHeader (apiHealthStatus (databaseHealthy (deps hs) (Req c)))
                     (jsonContentType (Resp c))) = true) as HW.
  { apply Written_WriteHeader. by destruct (databaseHealthy _ _). }
  destruct (EncodePretty _ _); simpl; [|exact HW].
  destruct (Write _ _).2 eqn:E; simpl; apply Written_Write.
Qed.

Lemma metricsEndpoint_written (hs : HTTPServer) (c : Context) :
  (∀ rw req, Written (promhttp_ServeHTTP (deps hs) rw req) = true) →
  metricsRequest hs c → Written (Resp (metricsEndpoint hs c)) = true.
Proof.
  intros Hprom Hreq. rewrite metricsEndpoint_match by done.
  destruct (_ && _); simpl; [|apply Hprom].
  by apply Written_WriteHeader.
Qed.

Lemma run_liveness (hs : HTTPServer) (post : list Middleware) (c : Context) :
  (∀ rw req, Written (promhttp_ServeHTTP (deps hs) rw req) = true) →
  livenessRequest hs (Req c) →
  aheadOfAuth (run hs (livenessStages ++ post) c).2.
Proof.
  intros Hprom Hreq. unfold aheadOfAuth, livenessStages.
  cbn [app run handle].
  destruct Hreq as [[Hm [Hp|Hp]]|Hmet].
  - rewrite healthzHandler_written by done. simpl. by repeat constructor.
  - rewrite healthzHandler_passthrough by (rewrite Hp; intros [_ [=]]).
    destruct (Written (Resp c)); [simpl; by repeat constructor|].
    rewrite apiHealthHandler_written by done. simpl. by repeat constructor.
  - destruct Hmet as (He & Hm & Hp).
    rewrite healthzHandler_passthrough by (rewrite Hp; intros [_ [=]]).
    destruct (Written (Resp c)) eqn:Hw; [simpl; by repeat constructor|].
    rewrite apiHealthHandler_passthrough by (rewrite Hp; intros [_ [=]]).
    rewrite Hw.
    rewrite metricsEndpoint_written by done. simpl. by repeat constructor.
Qed.

Lemma run_front (hs : HTTPServer) (pre rest : list Middleware) (c : Context) :
  Forall (fun mw => behindLiveness mw = false ∧ keepsTarget (handle hs mw)) pre →
  (∀ c', Method (Req c') = Method (Req c) → URLPath (Req c') = URLPath (Req c) →
         aheadOfAuth (run hs rest c').2) →
  aheadOfAuth (run hs (pre ++ rest) c).2.
Proof.
  intros Hpre. revert c. induction Hpre as [|mw pre [Hb Hk] _ IH]; intros c Hrest.
  - by apply Hrest.
  - cbn [app run]. destruct (Hk c) as [Hm Hp].
    destruct (Written (Resp (handle hs mw c))).
    + simpl. by repeat constructor.
    + specialize (IH (handle hs mw c)).
      destruct (run hs (pre ++ rest) (handle hs mw c)) as [c'' seen]. simpl in *.
      constructor; [done|]. apply IH. intros c' Hm' Hp'.
      apply Hrest; congruence.
Qed.

Lemma frontStages_ok (hs hs' : HTTPServer) :
  deps hs' = deps hs → wellBehaved (deps hs) →
  Forall (fun mw => behindLiveness mw = false ∧ keepsTarget (handle hs' mw))
         (frontStages hs).
Proof.
  intros Hd (Ht & Hl & Hg & Hr & Hs & Hh & Hv & _). unfold frontStages.
  destruct (setting.EnableGzip (Cfg hs)),
           (String.eqb (setting.ImageUploadProvider (Cfg hs)) "local");
    cbn [app];
    repeat (apply Forall_cons; split;
            [split; [reflexivity | cbn [handle]; rewrite Hd; auto]|]);
    apply Forall_nil; exact I.
Qed.

Lemma ProvideHTTPServer_fresh (opts : ServerOptions) (cfg : setting.Cfg)
    (d : Collaborators) (roles : option error) (hs : HTTPServer) (extra : list Handler) :
  ProvideHTTPServer opts cfg d roles = inl hs →
  handlers (web (fold_left (fun hs mw => AddMiddleware mw hs) extra hs)) = [].
Proof.
  unfold ProvideHTTPServer. destruct roles; [discriminate|]. intros [= <-].
  assert (∀ hs0, handlers (web hs0) = [] →
            handlers (web (fold_left (fun hs mw => AddMiddleware mw hs) extra hs0)) = [])
    as Hgen.
  { induction extra as [|mw extra IH]; intros hs0 H0; simpl; [done|]. by apply IH. }
  by apply Hgen.
Qed.

(** C2, as the code has it.  In the pipeline that
    [addMiddlewaresAndStaticRoutes] assembles on a fresh mux, the three
    liveness interceptors stand in a row; no stage in front of them is the
    context and authentication stage, the permission loader or any other
    stage registered behind them, and both of these are behind, whatever
    the configuration toggles and the extra middleware registered.  A
    request that an interceptor answers (GET or HEAD for [/healthz] or
    [/api/health], GET for [/metrics] while the endpoint is enabled) is
    never handed to a stage behind the interceptors, provided the
    collaborators in front keep its method and path and the exposition
    handler writes a response. *)
Theorem liveness_short_circuits_before_auth (hs : HTTPServer) :
  handlers (web hs) = [] →
  let hs' := addMiddlewaresAndStaticRoutes hs in
  (∃ pre post,
     handlers (web hs') = pre ++ [MHealthz; MApiHealth; MMetrics] ++ post
     ∧ aheadOfAuth pre
     ∧ MContextHandler ∈ post ∧ MLoadPermissions ∈ post
     ∧ Forall (fun mw => behindLiveness mw = true) post)
  ∧ (wellBehaved (deps hs) →
     ∀ c, livenessRequest hs (Req c) → aheadOfAuth (serveRequest hs' c).2).
Proof.
  intros Hfresh hs'. split.
  - exists (frontStages hs), (backStages hs). split; [|split; [|split; [|split]]].
    + subst hs'. rewrite pipeline_shape, Hfresh. reflexivity.
    + unfold aheadOfAuth, frontStages.
      destruct (setting.EnableGzip (Cfg hs)),
               (String.eqb (setting.ImageUploadProvider (Cfg hs)) "local");
        by repeat constructor.
    + unfold backStages. apply elem_of_app. left. apply list_elem_of_here.
    + unfold backStages. apply elem_of_app. left.
      do 2 apply list_elem_of_further. apply list_elem_of_here.
    + unfold backStages. repeat (apply Forall_app; split).
      * by repeat constructor.
      * destruct (setting.EnforceDomain (Cfg hs)); by repeat constructor.
      * by repeat constructor.
      * apply Forall_forall. intros mw [h [-> _]]%list_elem_of_fmap. done.
  - intros Hwb c Hreq. unfold serveRequest. subst hs'.
    rewrite pipeline_shape, Hfresh. cbn [app].
    apply run_front.
    + by apply frontStages_ok.
    + intros c' Hm Hp. apply run_liveness.
      * apply Hwb.
      * unfold livenessRequest in *. rewrite Hm, Hp. exact Hreq.
Qed.

Lemma liveness_short_circuits_before_auth_witness :
  let hs' := addMiddlewaresAndStaticRoutes (Sample.server Sample.cfg) in
  aheadOfAuth (serveRequest hs' (Sample.request "GET" "/healthz")).2
  ∧ aheadOfAuth (serveRequest hs' (Sample.request "HEAD" "/api/health")).2
  ∧ aheadOfAuth (serveRequest hs' (Sample.request "GET" "/metrics")).2.
Proof.
  intros hs'.
  destruct (liveness_short_circuits_before_auth (Sample.server Sample.cfg) eq_refl)
    as [_ Hrun].
  assert (wellBehaved (deps (Sample.server Sample.cfg))) as Hwb.
  { unfold wellBehaved, keepsTarget. simpl.
    repeat split. intros rw req. apply Written_Write. }
  specialize (Hrun Hwb).
  split; [|split]; apply Hrun.
  - left. split; [by left | by left].
  - left. split; [by right | by right].
  - right. repeat split.
Defined.

Lemma existsb_isContextHandler (l : list Middleware) :
  existsb isContextHandler l = true → MContextHandler ∈ l.
Proof.
  intros (mw & Hin & Hmw)%existsb_exists. apply list_elem_of_In.
  by destruct mw.
Qed.

Lemma existsb_isLoadPermissions (l : list Middleware) :
  existsb isLoadPermissions l = true → MLoadPermissions ∈ l.
Proof.
  intros (mw & Hin & Hmw)%existsb_exists. apply list_elem_of_In.
  by destruct mw.
Qed.

(** C2, as stated, fails: a POST for [/healthz] is not answered by the
    interceptor and reaches the context and authentication stage. *)
Lemma liveness_path_reaches_auth :
  let hs' := addMiddlewaresAndStaticRoutes (Sample.server Sample.cfg) in
  let c := Sample.request "POST" "/healthz" in
  URLPath (Req c) = "/healthz"
  ∧ MContextHandler ∈ (serveRequest hs' c).2
  ∧ MLoadPermissions ∈ (serveRequest hs' c).2.
Proof.
  intros hs' c. split; [reflexivity|]. split.
  - apply existsb_isContextHandler. vm_compute. reflexivity.
  - apply existsb_isLoadPermissions. vm_compute. reflexivity.
Qed.

(** ** [Run] *)

Lemma missingb_true (w : World) (path : string) :
  missingb w path = true ↔ missing w path.
Proof.
  unfold missingb, missing. rewrite orb_true_iff, String.eqb_eq.
  destruct (os_Stat w path); simpl; intuition congruence.
Qed.

Lemma Cfg_applyRoutes (hs : HTTPServer) : Cfg (applyRoutes hs) = Cfg hs.
Proof. reflexivity. Qed.

Lemma Listener_applyRoutes (hs : HTTPServer) : Listener (applyRoutes hs) = Listener hs.
Proof. reflexivity. Qed.

#[local] Arguments net.JoinHostPort : simpl never.
#[local] Arguments strings.TrimPrefix : simpl never.
#[local] Arguments strings.TrimSuffix : simpl never.
#[local] Arguments applyRoutes : simpl never.
#[local] Arguments shutdownWatcher : simpl never.
#[local] Arguments String.eqb : simpl never.
#[local] Arguments errors_Is : simpl never.

(** Unfolding [Run] down to the state-passing functions. *)
Ltac unfold_run :=
  unfold runServer, Run, serveSwitch, getListener, configureHttps, configureHttp2,
    stat, mbind, M_bind, ret, mret, M_ret, this, update, event.

(** One case per path through [Run]: split on the innermost test. *)
Ltac innermost x :=
  lazymatch x with
  | context [match _ with _ => _ end] => fail
  | context [if _ then _ else _] => fail
  | _ => idtac
  end.

Ltac split_run :=
  repeat (cbn; rewrite ?Cfg_applyRoutes, ?Listener_applyRoutes;
          try solve [intros; discriminate];
          match goal with
          | |- context [if ?b then _ else _] => innermost b; destruct b eqn:?
          | |- context [match ?x with _ => _ end] => innermost x; destruct x eqn:?
          end).

(** Membership of an event in an explicit trace. *)
Ltac in_trace H :=
  repeat (apply elem_of_cons in H as [H|H]; [try discriminate H|]);
  try (apply elem_of_nil in H; destruct H).

(** The amended C1.  In the HTTPS and HTTP2 modes, when the certificate
    path or the key path is empty, or [os.Stat] answers for it that the
    file does not exist (the answer [os.IsNotExist] accepts), [Run]
    returns an error, and it has neither opened nor served on a listener
    by then. *)
Theorem tls_modes_need_cert_and_key (w : World) (hs : HTTPServer) :
  usesTLS (setting.Protocol (Cfg hs)) = true →
  missing w (setting.CertFile (Cfg hs)) ∨ missing w (setting.KeyFile (Cfg hs)) →
  ∃ e, (runServer w hs).1 = Return (Some e)
       ∧ Forall (fun ev => quiet ev = true) (runServer w hs).2.
Proof.
  rewrite <- !missingb_true, <- orb_true_iff. unfold usesTLS, missingb.
  unfold_run. split_run; intros Htls Hmiss; try discriminate;
    (eexists; split; [reflexivity|]; by repeat constructor).
Qed.

Lemma tls_modes_need_cert_and_key_witness :
  let hs := Sample.server (Sample.withFiles "/etc/ssl/grafana.crt" ""
                             (Sample.withProtocol "https" Sample.cfg)) in
  ∃ e, (runServer (Sample.world None) hs).1 = Return (Some e)
       ∧ Forall (fun ev => quiet ev = true) (runServer (Sample.world None) hs).2.
Proof.
  intros hs. apply (tls_modes_need_cert_and_key (Sample.world None) hs).
  - reflexivity.
  - right. left. reflexivity.
Defined.

(** C1, as stated, fails on both counts.  In plain HTTP mode an empty
    certificate path does not stop [Run], which opens its listener and
    serves.  And in HTTPS mode the files need not be on disk: when the
    look-up of both paths fails with something else than not-exist, as it
    does for a path through a regular file, [Run] opens its listener all
    the same. *)
Lemma plain_http_ignores_missing_cert :
  let hs := Sample.server Sample.cfg in
  let r := runServer (Sample.world (Some ErrServerClosed)) hs in
  let tls := Sample.server (Sample.withFiles "/etc/hostname/tls.crt" "/etc/hostname/tls.key"
                              (Sample.withProtocol "https" Sample.cfg)) in
  let r' := runServer (Fixture.notDirectory (Some ErrServerClosed)) tls in
  (setting.CertFile (Cfg hs) = ""
   ∧ EvListen "tcp" "0.0.0.0:3000" ∈ r.2
   ∧ r.1 = Return None)
  ∧ (os_Stat (Fixture.notDirectory (Some ErrServerClosed)) (setting.CertFile (Cfg tls))
     = StatFailed (ErrExternal "stat: not a directory")
     ∧ EvListen "tcp" "0.0.0.0:3000" ∈ r'.2
     ∧ r'.1 = Return None).
Proof.
  intros hs r tls r'. split.
  - split; [reflexivity|]. split; [|reflexivity].
    vm_compute. apply list_elem_of_here.
  - split; [reflexivity|]. split; [|reflexivity].
    vm_compute. do 2 apply list_elem_of_further. apply list_elem_of_here.
Qed.

(** C4.  Whenever [Run] got as far as serving on a listener and the serve
    call ended with an error, [Run] returns [nil] if that error is the
    server-closed condition and returns that very error otherwise; this
    holds for the plain and for the TLS serve call.  With a listener
    handed in, the plain modes do get that far. *)
Theorem serve_error_decides_result (w : World) (hs : HTTPServer) :
  (∀ l err, EvServe l ∈ (runServer w hs).2 → http_Serve w l = Some err →
            (runServer w hs).1 = afterServe err)
  ∧ (∀ l certFile keyFile err,
       EvServeTLS l certFile keyFile ∈ (runServer w hs).2 →
       http_ServeTLS w l certFile keyFile = Some err →
       (runServer w hs).1 = afterServe err)
  ∧ (∀ l, Listener hs = Some l →
       setting.Protocol (Cfg hs) = setting.HTTPScheme
       ∨ setting.Protocol (Cfg hs) = setting.SocketScheme →
       EvServe l ∈ (runServer w hs).2).
Proof.
  unfold afterServe. split; [|split].
  - intros l err. unfold_run. split_run; intros Hin Hs; in_trace Hin;
      simplify_eq; cbn; try congruence;
      repeat match goal with H : errors_Is _ _ = _ |- _ => rewrite H; clear H end;
      reflexivity.
  - intros l certFile keyFile err. unfold_run.
    split_run; intros Hin Hs; in_trace Hin;
      simplify_eq; cbn; try congruence;
      repeat match goal with H : errors_Is _ _ = _ |- _ => rewrite H; clear H end;
      reflexivity.
  - intros l Hl Hproto.
    assert (String.eqb (setting.Protocol (Cfg hs)) setting.HTTP2Scheme = false
            ∧ String.eqb (setting.Protocol (Cfg hs)) setting.HTTPSScheme = false
            ∧ String.eqb (setting.Protocol (Cfg hs)) setting.HTTPScheme
              || String.eqb (setting.Protocol (Cfg hs)) setting.SocketScheme = true)
      as (E1 & E2 & E3) by (destruct Hproto as [-> | ->]; by vm_compute).
    unfold_run. cbn. rewrite ?Cfg_applyRoutes, ?Listener_applyRoutes.
    rewrite E1, E2. cbn. rewrite ?Cfg_applyRoutes, ?Listener_applyRoutes, Hl.
    cbn. rewrite ?Cfg_applyRoutes, E3. cbn.
    destruct (http_Serve w l) as [err|]; [destruct (errors_Is err _)|]; cbn;
      do 3 apply list_elem_of_further; apply list_elem_of_here.
Qed.

Lemma serve_error_decides_result_witness :
  let hs := Sample.server Sample.cfg in
  let l := {| net.Network := "tcp"; net.Addr := "0.0.0.0:3000" |} in
  (runServer (Sample.world (Some ErrServerClosed)) hs).1 = Return None
  ∧ (runServer (Sample.world (Some (ErrExternal "accept: too many open files"))) hs).1
    = Return (Some (ErrExternal "accept: too many open files")).
Proof.
  intros hs l. split.
  - destruct (serve_error_decides_result (Sample.world (Some ErrServerClosed)) hs)
      as [Hplain _].
    apply (Hplain l ErrServerClosed); [|reflexivity].
    do 4 apply list_elem_of_further. apply list_elem_of_here.
  - destruct (serve_error_decides_result
                (Sample.world (Some (ErrExternal "accept: too many open files"))) hs)
      as [Hplain _].
    apply (Hplain l (ErrExternal "accept: too many open files")); [|reflexivity].
    do 4 apply list_elem_of_further. apply list_elem_of_here.
Defined.

(** C9.  With a transport mode that is none of the four known ones,
    [Run] never serves and never opens a listener.  Without a listener
    handed in, it returns the "invalid protocol" error that
    [getListener] makes; with one, the mode reaches the serve step, which
    panics. *)
Theorem unknown_protocol_is_fatal (w : World) (hs : HTTPServer) :
  recognized (setting.Protocol (Cfg hs)) = false →
  Forall (fun ev => quiet ev = true) (runServer w hs).2
  ∧ (Listener hs = None →
     (runServer w hs).1
     = Return (Some (Errorf "invalid protocol %q" [setting.Protocol (Cfg hs)])))
  ∧ (∀ l, Listener hs = Some l →
     (runServer w hs).1 = Panic "Unhandled protocol %q" [setting.Protocol (Cfg hs)]).
Proof.
  unfold recognized. rewrite !orb_false_iff. intros [[[H1 H2] H3] H4].
  unfold_run.
  do 2 (cbn; rewrite ?Cfg_applyRoutes, ?Listener_applyRoutes, ?H1, ?H2, ?H3, ?H4).
  destruct (Listener hs) as [l|];
    do 2 (cbn; rewrite ?Cfg_applyRoutes, ?H1, ?H2, ?H3, ?H4).
  - split; [by repeat constructor|]. split; [discriminate|].
    by intros ? [= <-].
  - split; [by repeat constructor|]. split; [done|]. discriminate.
Qed.

Lemma unknown_protocol_is_fatal_witness :
  let hs := Sample.server (Sample.withProtocol "ftp" Sample.cfg) in
  (runServer (Sample.world None) hs).1
  = Return (Some (Errorf "invalid protocol %q" ["ftp"])).
Proof.
  intros hs.
  destruct (unknown_protocol_is_fatal (Sample.world None) hs eq_refl)
    as (_ & Herr & _).
  apply Herr. reflexivity.
Defined.

(** The barrier [wg.Wait] is reached only when the serve call returned
    [nil]. *)
Lemma barrier_needs_nil_serve (w : World) (hs : HTTPServer) :
  EvWgWait ∈ (runServer w hs).2 →
  (∃ l, EvServe l ∈ (runServer w hs).2 ∧ http_Serve w l = None)
  ∨ (∃ l certFile keyFile,
       EvServeTLS l certFile keyFile ∈ (runServer w hs).2
       ∧ http_ServeTLS w l certFile keyFile = None).
Proof.
  unfold_run. split_run; intros Hin; in_trace Hin;
    first
      [ left; eexists; split; [|eassumption];
        repeat first [apply list_elem_of_here | apply list_elem_of_further]
      | right; do 3 eexists; split; [|eassumption];
        repeat first [apply list_elem_of_here | apply list_elem_of_further] ].
Qed.

(** C3 on the code.  On the graceful-shutdown path (plain HTTP, the serve
    call ending with the server-closed condition) [Run] returns [nil]
    after it has started the shutdown watcher, and without having waited
    on the wait group whose [Done] is the watcher's last step. *)
Theorem graceful_return_skips_barrier :
  let r := runServer (Sample.world (Some ErrServerClosed)) (Sample.server Sample.cfg) in
  r.1 = Return None
  ∧ EvGo [WCtxDone; WShutdown; WWgDone] ∈ r.2
  ∧ EvWgAdd 1 ∈ r.2
  ∧ EvWgWait ∉ r.2.
Proof.
  intros r. split; [reflexivity|].
  split; [vm_compute; do 3 apply list_elem_of_further; apply list_elem_of_here|].
  split; [vm_compute; do 2 apply list_elem_of_further; apply list_elem_of_here|].
  intros Hin. apply barrier_needs_nil_serve in Hin.
  destruct Hin as [(l & _ & H)|(l & c & k & _ & H)]; discriminate H.
Qed.

(** ** More on [Run] *)

#[local] Arguments hostOf : simpl never.

(** As [split_run], with the disjunctions of tests taken apart. *)
Ltac split_paths :=
  repeat (cbn; rewrite ?Cfg_applyRoutes, ?Listener_applyRoutes;
          unfold orb, andb;
          try solve [intros; discriminate];
          match goal with
          | |- context [if ?b then _ else _] => innermost b; destruct b eqn:?
          | |- context [match ?x with _ => _ end] => innermost x; destruct x eqn:?
          end).

(** Case analysis on a call of [Run] named [r]: the statement is put
    aside while the paths are split, and comes back with [r] replaced by
    the outcome, the final state and the trace of the path. *)
Ltac run_paths r :=
  let Hr := fresh "Hr" in
  let G := fresh "G" in
  remember r as rv eqn:Hr in |- *; revert Hr;
  match goal with |- _ → ?C => set (G := C) end;
  unfold_run; split_paths; cbn; subst G; cbn; intros ->; cbn.

Lemma runServer_Run (w : World) (hs : HTTPServer) :
  runServer w hs
  = ((Run w {| srv := hs; trace := [] |}).1,
     trace (Run w {| srv := hs; trace := [] |}).2).
Proof. unfold runServer. by destruct (Run w _). Qed.

Lemma not_missing (w : World) (path : string) :
  String.eqb path "" = false → os_IsNotExist (os_Stat w path) = false →
  ¬ missing w path.
Proof.
  intros H1 H2 Hm. apply missingb_true in Hm. unfold missingb in Hm.
  rewrite H1, H2 in Hm. discriminate.
Qed.

Lemma not_IsNotExist (r : StatResult) : r ≠ StatNotExist → os_IsNotExist r = false.
Proof. by destruct r. Qed.

(** X1.  Whatever the configuration and the environment, the calls of
    [Run] come in life-cycle order: files are looked up only while
    configuring, at most one listener is opened, a Unix socket gets its
    mode before anything else happens to it, the wait group is armed and
    the watcher started before the one serve call, and the barrier comes
    only after serving.  How [Run] ends goes with the phase reached: an
    error before the wait group is armed, a panic right after the watcher
    is started, [nil] or an error other than server-closed after the
    serve call, [nil] after the barrier. *)
Theorem run_follows_life_cycle (w : World) (hs : HTTPServer) :
  ∃ p, phaseAfter Configuring (runServer w hs).2 = Some p
       ∧ endsIn p (runServer w hs).1.
Proof.
  run_paths (runServer w hs);
    (eexists; split; [reflexivity|]); cbn; unfold afterServe; eauto.
  all: eexists; match goal with H : errors_Is _ _ = _ |- _ => rewrite H end;
       reflexivity.
Qed.

(** X2.  A server that was handed a listener never opens a socket and
    never changes the mode of one, and every serve call it makes is on
    the listener it was handed. *)
Theorem supplied_listener_is_the_one_served (w : World) (hs : HTTPServer) (l : net.Listener) :
  Listener hs = Some l →
  Forall (fun e => touchesSocket e = false) (runServer w hs).2
  ∧ ∀ e l', e ∈ (runServer w hs).2 → servedOn e = Some l' → l' = l.
Proof.
  intros Hl. run_paths (runServer w hs); try congruence;
    (split; [by repeat constructor|]);
    intros ev l' Hin Hs; in_trace Hin; subst ev; cbn in Hs; congruence.
Qed.

Lemma supplied_listener_is_the_one_served_witness :
  let hs := Fixture.serverOn Fixture.listener Sample.cfg in
  let r := runServer (Sample.world (Some ErrServerClosed)) hs in
  Forall (fun e => touchesSocket e = false) r.2
  ∧ ∀ e l', e ∈ r.2 → servedOn e = Some l' → l' = Fixture.listener.
Proof.
  intros hs r.
  exact (supplied_listener_is_the_one_served (Sample.world (Some ErrServerClosed)) hs
           Fixture.listener eq_refl).
Defined.

Lemma socket_tests (hs : HTTPServer) :
  setting.Protocol (Cfg hs) = setting.SocketScheme →
  String.eqb (setting.Protocol (Cfg hs)) setting.HTTP2Scheme = false
  ∧ String.eqb (setting.Protocol (Cfg hs)) setting.HTTPSScheme = false
  ∧ String.eqb (setting.Protocol (Cfg hs)) setting.HTTPScheme = false
  ∧ String.eqb (setting.Protocol (Cfg hs)) setting.SocketScheme = true.
Proof. intros ->. by vm_compute. Qed.

(** X3.  In Unix socket mode, without a listener handed in, [Run] opens
    the socket at the configured path and then sets its mode to 0660.
    If opening fails, the mode is not touched and the error returned
    wraps the cause; if setting the mode fails, the error returned wraps
    that cause; in both cases nothing is served.  When both succeed, the
    serve call is made on the Unix listener at that path. *)
Theorem unix_socket_gets_group_mode (w : World) (hs : HTTPServer) :
  setting.Protocol (Cfg hs) = setting.SocketScheme →
  Listener hs = None →
  let path := setting.SocketPath (Cfg hs) in
  let r := runServer w hs in
  (∀ err, net_ListenUnix w path = Some err →
     r = (Return (Some (Wrapf err "failed to open listener for socket %s" [path])),
          [EvListenUnix path]))
  ∧ (∀ err, net_ListenUnix w path = None → os_Chmod w path mode_0660 = Some err →
     r = (Return (Some (Wrapf err "failed to change socket permissions" [])),
          [EvListenUnix path; EvChmod path mode_0660]))
  ∧ (net_ListenUnix w path = None → os_Chmod w path mode_0660 = None →
     ∃ rest, r.2 = [EvListenUnix path; EvChmod path mode_0660;
                    EvLog Info "HTTP Server Listen"; EvWgAdd 1;
                    EvGo (shutdownWatcher w);
                    EvServe {| net.Network := "unix"; net.Addr := path |}] ++ rest).
Proof.
  intros Hp Hl path r. subst path r.
  destruct (socket_tests hs Hp) as (E1 & E2 & E3 & E4).
  unfold_run.
  do 3 (cbn; rewrite ?Cfg_applyRoutes, ?Listener_applyRoutes, ?Hl, ?E1, ?E2, ?E3, ?E4).
  split; [|split].
  - intros err ->. reflexivity.
  - intros err -> ->. reflexivity.
  - intros -> ->.
    do 2 (cbn; rewrite ?Cfg_applyRoutes, ?E1, ?E2, ?E3, ?E4).
    destruct (http_Serve w _) as [err|]; [destruct (errors_Is err _)|];
      cbn; eexists; reflexivity.
Qed.

Lemma unix_socket_gets_group_mode_witness :
  let hs := Sample.server (Sample.withProtocol "socket" Sample.cfg) in
  runServer (Fixture.world [] (Some (ErrExternal "chmod: operation not permitted")) None) hs
  = (Return (Some (Wrapf (ErrExternal "chmod: operation not permitted")
                     "failed to change socket permissions" [])),
     [EvListenUnix "/tmp/grafana.sock"; EvChmod "/tmp/grafana.sock" 432]).
Proof.
  intros hs.
  destruct (unix_socket_gets_group_mode
              (Fixture.world [] (Some (ErrExternal "chmod: operation not permitted")) None)
              hs eq_refl eq_refl) as (_ & Hchmod & _).
  exact (Hchmod _ eq_refl eq_refl).
Defined.

(** X4.  The serve call fits the mode.  A plain serve call is only made
    in HTTP or Unix socket mode.  A TLS serve call is only made in HTTPS
    or HTTP2 mode, with the configured certificate and key paths, and
    only after both were found non-empty and looked up without a
    not-exist answer. *)
Theorem serve_call_fits_mode (w : World) (hs : HTTPServer) :
  (∀ l, EvServe l ∈ (runServer w hs).2 →
        setting.Protocol (Cfg hs) = setting.HTTPScheme
        ∨ setting.Protocol (Cfg hs) = setting.SocketScheme)
  ∧ (∀ l certFile keyFile, EvServeTLS l certFile keyFile ∈ (runServer w hs).2 →
        usesTLS (setting.Protocol (Cfg hs)) = true
        ∧ certFile = setting.CertFile (Cfg hs) ∧ keyFile = setting.KeyFile (Cfg hs)
        ∧ ¬ missing w certFile ∧ ¬ missing w keyFile
        ∧ EvStat certFile ∈ (runServer w hs).2 ∧ EvStat keyFile ∈ (runServer w hs).2).
Proof.
  split.
  - intros l. run_paths (runServer w hs); intros Hin; in_trace Hin;
      first [left; by apply String.eqb_eq | right; by apply String.eqb_eq].
  - intros l certFile keyFile.
    run_paths (runServer w hs); intros Hin; in_trace Hin; simplify_eq;
      unfold usesTLS;
      repeat match goal with
             | H : String.eqb (setting.Protocol _) _ = _ |- _ => rewrite H
             end;
      (split; [reflexivity|]); (split; [reflexivity|]); (split; [reflexivity|]);
      (split; [by apply not_missing|]); (split; [by apply not_missing|]);
      split; repeat first [apply list_elem_of_here | apply list_elem_of_further].
Qed.

Lemma serve_call_fits_mode_witness :
  let hs := Sample.server (Fixture.tlsCfg "h2") in
  let w := Fixture.world ["/etc/grafana/tls.crt"; "/etc/grafana/tls.key"] None
             (Some ErrServerClosed) in
  usesTLS (setting.Protocol (Cfg hs)) = true
  ∧ ¬ missing w "/etc/grafana/tls.crt" ∧ ¬ missing w "/etc/grafana/tls.key".
Proof.
  intros hs w.
  destruct (serve_call_fits_mode w hs) as [_ Htls].
  assert (EvServeTLS {| net.Network := "tcp"; net.Addr := "0.0.0.0:3000" |}
            "/etc/grafana/tls.crt" "/etc/grafana/tls.key" ∈ (runServer w hs).2) as Hin.
  { vm_compute. do 6 apply list_elem_of_further. apply list_elem_of_here. }
  destruct (Htls _ _ _ Hin) as (Hu & _ & _ & Hc & Hk & _).
  split; [exact Hu|]. split; [exact Hc | exact Hk].
Defined.

(** X5.  In the HTTPS and HTTP2 modes the checks run in a fixed order and
    each failure has its own error: an empty certificate path, then an
    empty key path, both reported without touching the file system and
    naming the mode; then a certificate file that does not exist, and
    only after the certificate was found, a key file that does not
    exist. *)
Theorem tls_checks_in_order (w : World) (hs : HTTPServer) :
  usesTLS (setting.Protocol (Cfg hs)) = true →
  let cert := setting.CertFile (Cfg hs) in
  let key := setting.KeyFile (Cfg hs) in
  let mode := tlsModeName (setting.Protocol (Cfg hs)) in
  (cert = "" →
     runServer w hs
     = (Return (Some (Errorf ("cert_file cannot be empty when using " ++ mode) [])), []))
  ∧ (cert ≠ "" → key = "" →
     runServer w hs
     = (Return (Some (Errorf ("cert_key cannot be empty when using " ++ mode) [])), []))
  ∧ (cert ≠ "" → key ≠ "" → os_Stat w cert = StatNotExist →
     runServer w hs
     = (Return (Some (Errorf "cannot find SSL cert_file at %q" [cert])), [EvStat cert]))
  ∧ (cert ≠ "" → key ≠ "" → os_Stat w cert ≠ StatNotExist →
     os_Stat w key = StatNotExist →
     runServer w hs
     = (Return (Some (Errorf "cannot find SSL key_file at %q" [key])),
        [EvStat cert; EvStat key])).
Proof.
  intros Htls cert key mode. subst cert key mode.
  unfold usesTLS in Htls. unfold tlsModeName.
  assert (∀ a b : string, a ≠ b → String.eqb a b = false) as Hne
    by (intros a b; apply String.eqb_neq).
  destruct (String.eqb (setting.Protocol (Cfg hs)) setting.HTTP2Scheme) eqn:E2;
    [|cbn in Htls];
    (split; [|split; [|split]]).
  all: intros; unfold_run;
    repeat (cbn; rewrite ?Cfg_applyRoutes, ?E2, ?Htls);
    repeat match goal with
           | H : _ = "" |- _ => rewrite H; clear H
           | H : _ ≠ "" |- _ => rewrite (Hne _ _ H)
           | H : os_Stat _ _ = _ |- _ => rewrite H
           | H : os_Stat _ _ ≠ _ |- _ => rewrite (not_IsNotExist _ H)
           end;
    repeat (cbn; rewrite ?Cfg_applyRoutes, ?E2, ?Htls);
    try reflexivity.
Qed.

Lemma tls_checks_in_order_witness :
  let hs := Sample.server (Fixture.tlsCfg "https") in
  runServer (Fixture.world ["/etc/grafana/tls.crt"] None None) hs
  = (Return (Some (Errorf "cannot find SSL key_file at %q" ["/etc/grafana/tls.key"])),
     [EvStat "/etc/grafana/tls.crt"; EvStat "/etc/grafana/tls.key"]).
Proof.
  intros hs.
  destruct (tls_checks_in_order (Fixture.world ["/etc/grafana/tls.crt"] None None) hs eq_refl)
    as (_ & _ & _ & Hkey).
  apply Hkey; first [discriminate | reflexivity].
Defined.

(** X6.  Only a not-exist answer stops the start-up: when both paths are
    set and looking them up fails for another reason, or succeeds, [Run]
    goes on and opens the TCP listener on the server address. *)
Theorem unreadable_files_pass_the_check (w : World) (hs : HTTPServer) :
  usesTLS (setting.Protocol (Cfg hs)) = true →
  Listener hs = None →
  let cert := setting.CertFile (Cfg hs) in
  let key := setting.KeyFile (Cfg hs) in
  cert ≠ "" → key ≠ "" →
  os_Stat w cert ≠ StatNotExist → os_Stat w key ≠ StatNotExist →
  ∃ rest, (runServer w hs).2
          = [EvStat cert; EvStat key; EvListen "tcp" (listenAddr (Cfg hs))] ++ rest.
Proof.
  intros Htls Hl cert key Hc Hk Hsc Hsk. subst cert key. unfold usesTLS in Htls.
  apply String.eqb_neq in Hc, Hk. apply not_IsNotExist in Hsc, Hsk.
  run_paths (runServer w hs); try congruence;
    try (eexists; reflexivity).
  all: cbn in Htls; congruence.
Qed.

Lemma unreadable_files_pass_the_check_witness :
  let hs := Sample.server (Fixture.tlsCfg "https") in
  let w := {| os_Stat := fun _ => StatFailed (ErrExternal "permission denied");
              net_Listen := fun _ _ => None; net_ListenUnix := fun _ => None;
              os_Chmod := fun _ _ => None; http_Serve := fun _ => None;
              http_ServeTLS := fun _ _ _ => Some (ErrExternal "open: permission denied");
              http_Shutdown := None |} in
  ∃ rest, (runServer w hs).2
          = [EvStat "/etc/grafana/tls.crt"; EvStat "/etc/grafana/tls.key";
             EvListen "tcp" "0.0.0.0:3000"] ++ rest.
Proof.
  intros hs w.
  apply (unreadable_files_pass_the_check w hs); first [reflexivity | discriminate].
Defined.

(** X7.  [Run] leaves the configuration, the listener handed in, the
    registered extra middleware and the collaborators of the server as
    they were, however it ends.  It always has applied the routes once
    and given the server its address, the host of the configuration
    without enclosing brackets joined with the port, and the read timeout
    of the configuration. *)
Theorem run_frame (w : World) (hs : HTTPServer) :
  let hs' := runFinal w hs in
  Cfg hs' = Cfg hs ∧ Listener hs' = Listener hs
  ∧ middlewares hs' = middlewares hs ∧ deps hs' = deps hs
  ∧ web hs' = web (applyRoutes hs)
  ∧ ∃ s, httpSrv hs' = Some s
         ∧ srvAddr s = listenAddr (Cfg hs)
         ∧ ReadTimeout s = setting.ReadTimeout (Cfg hs).
Proof.
  unfold runFinal.
  run_paths (Run w {| srv := hs; trace := [] |});
    (split; [reflexivity|]);
    (split; [rewrite ?Listener_applyRoutes; congruence|]);
    repeat (split; [reflexivity|]); eexists;
    (split; [reflexivity|]); split; reflexivity.
Qed.

(** X8.  Which TLS set-up the server ends up with goes with the mode.
    In the plain modes no file is looked up and no TLS configuration is
    installed.  Once a TLS serve call is made, a configuration with
    minimum version TLS 1.2 is installed; in HTTP2 mode it offers [h2]
    then [http/1.1] and leaves the protocol table alone, in HTTPS mode it
    offers no protocol and the protocol table is emptied. *)
Theorem tls_setup_goes_with_mode (w : World) (hs : HTTPServer) :
  (usesTLS (setting.Protocol (Cfg hs)) = false →
     Forall (fun e => isStat e = false) (runServer w hs).2
     ∧ ∃ s, httpSrv (runFinal w hs) = Some s ∧ TLSConfig s = None)
  ∧ (∀ l certFile keyFile, EvServeTLS l certFile keyFile ∈ (runServer w hs).2 →
     let h2 := String.eqb (setting.Protocol (Cfg hs)) setting.HTTP2Scheme in
     ∃ s c, httpSrv (runFinal w hs) = Some s ∧ TLSConfig s = Some c
            ∧ tls.MinVersion c = tls.VersionTLS12
            ∧ tls.NextProtos c = (if h2 then ["h2"; "http/1.1"] else [])
            ∧ TLSNextProtoEmpty s = negb h2).
Proof.
  rewrite runServer_Run. unfold runFinal, usesTLS. split.
  - run_paths (Run w {| srv := hs; trace := [] |}); intros Htls;
      try discriminate;
      (split; [by repeat constructor|]); eexists; split; reflexivity.
  - intros l certFile keyFile.
    run_paths (Run w {| srv := hs; trace := [] |}); intros Hin; in_trace Hin;
      repeat match goal with
             | H : String.eqb (setting.Protocol _) _ = _ |- _ => rewrite H
             end;
      do 2 eexists; repeat (split; [reflexivity|]); reflexivity.
Qed.

Lemma tls_setup_goes_with_mode_witness :
  let hs := Sample.server Sample.cfg in
  let w := Sample.world (Some ErrServerClosed) in
  Forall (fun e => isStat e = false) (runServer w hs).2
  ∧ ∃ s, httpSrv (runFinal w hs) = Some s ∧ TLSConfig s = None.
Proof.
  intros hs w.
  destruct (tls_setup_goes_with_mode w hs) as [Hplain _].
  apply Hplain. reflexivity.
Defined.

(** ** The server address *)

Lemma substring_whole (s : string) : String.substring 0 (String.length s) s = s.
Proof. induction s as [|a s IH]; simpl; [done|]. by rewrite IH. Qed.

Lemma length_snoc (s x : string) :
  String.length (s ++ x)%string = (String.length s + String.length x)%nat.
Proof. induction s as [|a s IH]; simpl; [done|]. by rewrite IH. Qed.

Lemma substring_tail (s x : string) :
  String.substring (String.length s) (String.length x) (s ++ x)%string = x.
Proof. induction s as [|a s IH]; simpl; [apply substring_whole | exact IH]. Qed.

Lemma substring_front (s x : string) :
  String.substring 0 (String.length s) (s ++ x)%string = s.
Proof.
  induction s as [|a s IH]; simpl; [by destruct x|]. by rewrite IH.
Qed.

Lemma TrimSuffix_snoc (s x : string) : strings.TrimSuffix (s ++ x)%string x = s.
Proof.
  unfold strings.TrimSuffix, strings.HasSuffix.
  rewrite length_snoc.
  replace (String.length s + String.length x - String.length x)%nat
    with (String.length s) by lia.
  rewrite substring_tail, String.eqb_refl, substring_front.
  replace (String.length x <=? String.length s + String.length x)%nat with true
    by (symmetry; apply Nat.leb_le; lia).
  done.
Qed.

Lemma TrimPrefix_head (a : Ascii.ascii) (s : string) :
  strings.TrimPrefix (String a s) (String a EmptyString) = s.
Proof.
  unfold strings.TrimPrefix.
  assert (String.prefix (String a EmptyString) (String a s) = true) as ->.
  { simpl. destruct (Ascii.ascii_dec a a); [by destruct s | done]. }
  simpl. rewrite Nat.sub_0_r. apply substring_whole.
Qed.

Lemma TrimPrefix_bracket (s : string) : strings.TrimPrefix ("[" ++ s)%string "[" = s.
Proof. exact (TrimPrefix_head _ s). Qed.

Lemma hostOf_bare (h : string) :
  String.prefix "[" h = false → strings.HasSuffix h "]" = false → hostOf h = h.
Proof.
  intros Hp Hs. unfold hostOf, strings.TrimPrefix. rewrite Hp.
  unfold strings.TrimSuffix. by rewrite Hs.
Qed.

Lemma hostOf_bracketed (h : string) : hostOf ("[" ++ h ++ "]")%string = h.
Proof. unfold hostOf. by rewrite TrimPrefix_bracket, TrimSuffix_snoc. Qed.

(** X9.  Square brackets around the configured host are optional: for a
    host that neither starts with an opening nor ends with a closing
    bracket, the server address is the same whether the configuration
    gives the host bare or enclosed in brackets, namely host and port
    joined; for a host with a colon in it, an IPv6 address, that is the
    bracketed host, a colon and the port. *)
Theorem host_brackets_are_optional (cfg : setting.Cfg) (h : string) :
  String.prefix "[" h = false → strings.HasSuffix h "]" = false →
  setting.HTTPAddr cfg = h ∨ setting.HTTPAddr cfg = ("[" ++ h ++ "]")%string →
  listenAddr cfg = net.JoinHostPort h (setting.HTTPPort cfg)
  ∧ (is_Some (String.index 0 ":" h) →
     listenAddr cfg = ("[" ++ h ++ "]:" ++ setting.HTTPPort cfg)%string).
Proof.
  intros Hp Hs Haddr.
  assert (hostOf (setting.HTTPAddr cfg) = h) as Hhost.
  { destruct Haddr as [-> | ->]; [by apply hostOf_bare | apply hostOf_bracketed]. }
  unfold listenAddr. rewrite Hhost. split; [done|].
  intros [i Hi]. unfold net.JoinHostPort. by rewrite Hi.
Qed.

Lemma host_brackets_are_optional_witness :
  listenAddr (Fixture.withAddr "[::1]" Sample.cfg) = "[::1]:3000"
  ∧ listenAddr (Fixture.withAddr "::1" Sample.cfg) = "[::1]:3000".
Proof.
  split.
  - apply (host_brackets_are_optional (Fixture.withAddr "[::1]" Sample.cfg) "::1");
      [reflexivity | reflexivity | by right | by eexists].
  - apply (host_brackets_are_optional (Fixture.withAddr "::1" Sample.cfg) "::1");
      [reflexivity | reflexivity | by left | by eexists].
Defined.

(** ** More on the pipeline *)

Lemma AddMiddleware_fold_web (l : list Handler) (hs : HTTPServer) :
  web (fold_left (fun hs mw => AddMiddleware mw hs) l hs) = web hs
  ∧ Cfg (fold_left (fun hs mw => AddMiddleware mw hs) l hs) = Cfg hs
  ∧ deps (fold_left (fun hs mw => AddMiddleware mw hs) l hs) = deps hs
  ∧ middlewares (fold_left (fun hs mw => AddMiddleware mw hs) l hs)
    = middlewares hs ++ l.
Proof.
  revert hs. induction l as [|mw l IH]; intros hs; simpl.
  - by rewrite app_nil_r.
  - destruct (IH (AddMiddleware mw hs)) as (-> & -> & -> & ->). simpl.
    by rewrite <- app_assoc.
Qed.

Lemma frontStages_ext (hs hs' : HTTPServer) :
  Cfg hs' = Cfg hs → deps hs' = deps hs → frontStages hs' = frontStages hs.
Proof.
  intros Hc Hd. unfold frontStages, mapStatic_headers. by rewrite Hc, Hd.
Qed.

(** X10.  Middleware registered with [AddMiddleware] ends up behind the
    whole fixed pipeline, in the order of registration: assembling after
    further registrations gives the pipeline assembled without them,
    followed by one stage for each, first registered first. *)
Theorem extra_middleware_runs_last (hs : HTTPServer) (l : list Handler) :
  handlers (web (addMiddlewaresAndStaticRoutes
                   (fold_left (fun hs mw => AddMiddleware mw hs) l hs)))
  = handlers (web (addMiddlewaresAndStaticRoutes hs)) ++ map MExtra l.
Proof.
  rewrite !pipeline_shape.
  destruct (AddMiddleware_fold_web l hs) as (Hw & Hc & Hd & Hm).
  rewrite (frontStages_ext hs _ Hc Hd), Hw.
  unfold backStages. rewrite Hc, Hm, map_app.
  by rewrite <- !app_assoc.
Qed.

Lemma staticPrefixes_extra (l : list Handler) : staticPrefixes (map MExtra l) = [].
Proof. by induction l. Qed.

(** X11.  The static mappings are installed in a fixed order: first the
    versioned build directory, then the whole public directory, whose
    prefix covers the build directory as well, then [robots.txt], and
    last the uploaded images, which are mapped exactly when the image
    upload provider is the local one.  Nothing else in the pipeline is a
    static mapping. *)
Theorem build_mapping_comes_first (hs : HTTPServer) :
  staticPrefixes (handlers (web (addMiddlewaresAndStaticRoutes hs)))
  = staticPrefixes (handlers (web hs))
    ++ ["public/build"; "public"; "robots.txt"]
    ++ (if String.eqb (setting.ImageUploadProvider (Cfg hs)) "local"
        then ["/public/img/attachments"] else []).
Proof.
  rewrite pipeline_shape. unfold staticPrefixes at 1.
  rewrite !omap_app. fold (staticPrefixes (handlers (web hs))). f_equal.
  unfold frontStages, livenessStages, backStages.
  rewrite !omap_app. fold (staticPrefixes (map MExtra (middlewares hs))).
  rewrite staticPrefixes_extra.
  by destruct (setting.EnableGzip (Cfg hs)),
              (String.eqb (setting.ImageUploadProvider (Cfg hs)) "local"),
              (setting.EnforceDomain (Cfg hs)).
Qed.

Lemma elem_of_existsb (p : Middleware → bool) (m0 : Middleware) (l : list Middleware) :
  (∀ mw, p mw = true ↔ mw = m0) → m0 ∈ l ↔ existsb p l = true.
Proof.
  intros Hp. rewrite existsb_exists, list_elem_of_In. split.
  - intros Hin. exists m0. split; [exact Hin | by apply Hp].
  - intros (mw & Hin & Hmw). apply Hp in Hmw. by subst mw.
Qed.

Lemma existsb_extra (p : Middleware → bool) (l : list Handler) :
  (∀ h, p (MExtra h) = false) → existsb p (map MExtra l) = false.
Proof.
  intros Hp. induction l as [|h l IH]; simpl; [reflexivity|]. by rewrite Hp, IH.
Qed.

Lemma isGziper_spec (mw : Middleware) : isGziper mw = true ↔ mw = MGziper.
Proof. destruct mw; simpl; split; first [reflexivity | discriminate]. Qed.

Lemma isValidateHostHeader_spec (mw : Middleware) :
  isValidateHostHeader mw = true ↔ mw = MValidateHostHeader.
Proof. destruct mw; simpl; split; first [reflexivity | discriminate]. Qed.

(** X12.  The optional stages follow their toggles, and the fixed ones
    keep their place.  On a fresh mux the compression stage is in the
    pipeline exactly when gzip is enabled, and the host validation stage
    exactly when the domain is enforced, in which case it stands behind
    the context stage.  The recovery stage has only tracing, logging and
    compression in front of it. *)
Theorem optional_stages_follow_toggles (hs : HTTPServer) :
  handlers (web hs) = [] →
  let pipeline := handlers (web (addMiddlewaresAndStaticRoutes hs)) in
  (MGziper ∈ pipeline ↔ setting.EnableGzip (Cfg hs) = true)
  ∧ (MValidateHostHeader ∈ pipeline ↔ setting.EnforceDomain (Cfg hs) = true)
  ∧ (setting.EnforceDomain (Cfg hs) = true →
     ∃ a b c, pipeline = a ++ MContextHandler :: b ++ MValidateHostHeader :: c)
  ∧ ∃ pre post, pipeline = pre ++ MRecovery :: post
       ∧ Forall (fun mw => mw = MRequestTracing ∨ mw = MLogger ∨ mw = MGziper) pre.
Proof.
  intros Hfresh pipeline. subst pipeline. rewrite pipeline_shape, Hfresh.
  cbn [app]. split; [|split; [|split]].
  - rewrite (elem_of_existsb isGziper MGziper _ isGziper_spec).
    rewrite !existsb_app. unfold backStages. rewrite !existsb_app.
    rewrite (existsb_extra isGziper) by reflexivity.
    unfold frontStages, livenessStages.
    destruct (setting.EnableGzip (Cfg hs)),
             (String.eqb (setting.ImageUploadProvider (Cfg hs)) "local"),
             (setting.EnforceDomain (Cfg hs)); cbn; split; congruence.
  - rewrite (elem_of_existsb isValidateHostHeader MValidateHostHeader _
               isValidateHostHeader_spec).
    rewrite !existsb_app. unfold backStages. rewrite !existsb_app.
    rewrite (existsb_extra isValidateHostHeader) by reflexivity.
    unfold frontStages, livenessStages.
    destruct (setting.EnableGzip (Cfg hs)),
             (String.eqb (setting.ImageUploadProvider (Cfg hs)) "local"),
             (setting.EnforceDomain (Cfg hs)); cbn; split; congruence.
  - intros Henf. unfold backStages. rewrite Henf.
    exists (frontStages hs ++ livenessStages), [MOrgRedirect; MLoadPermissions],
      ([MNoCacheHeader; MCSPHeader] ++ map MExtra (middlewares hs)).
    rewrite <- !app_assoc. reflexivity.
  - unfold frontStages.
    exists ([MRequestTracing; MLogger]
            ++ if setting.EnableGzip (Cfg hs) then [MGziper] else []).
    eexists. split; [rewrite <- !app_assoc; reflexivity|].
    destruct (setting.EnableGzip (Cfg hs)); cbn [app];
      repeat (apply Forall_cons; split; [auto|]); apply Forall_nil; exact I.
Qed.

Lemma optional_stages_follow_toggles_witness :
  let pipeline := handlers (web (addMiddlewaresAndStaticRoutes (Sample.server Sample.cfg))) in
  (MGziper ∉ pipeline) ∧ (MValidateHostHeader ∉ pipeline).
Proof.
  intros pipeline.
  destruct (optional_stages_follow_toggles (Sample.server Sample.cfg) eq_refl)
    as (Hgzip & Hhost & _).
  split; intros Hin; [apply Hgzip in Hin | apply Hhost in Hin]; discriminate Hin.
Defined.

(** ** More on the interceptors *)

Lemma header_WriteHeader (s : Z) (rw : ResponseWriter) :
  header (WriteHeader s rw) = header rw.
Proof. unfold WriteHeader. by destruct (Written rw). Qed.

Lemma header_Write (b : string) (rw : ResponseWriter) :
  header (Write b rw).1 = header rw.
Proof.
  unfold Write. destruct (Written rw).
  - by destruct (wfail rw).
  - destruct (wfail (WriteHeader 200 rw)); simpl; apply header_WriteHeader.
Qed.

(** X13.  A GET or HEAD for [/api/health] that reaches the handler with
    an unwritten response always gets the JSON content type.  When the
    encoder refuses the object, the probe's status is committed all the
    same, the body stays as it was, and the failure is logged. *)
Theorem api_health_encoder_failure (hs : HTTPServer) (ctx : Context) :
  getOrHead (Method (Req ctx)) → URLPath (Req ctx) = "/api/health" →
  Written (Resp ctx) = false →
  let healthy := databaseHealthy (deps hs) (Req ctx) in
  let ctx' := apiHealthHandler hs ctx in
  header (Resp ctx') !! "Content-Type" = Some "application/json; charset=UTF-8"
  ∧ ∀ err, EncodePretty (deps hs) (apiHealthData hs healthy) = inr err →
      status (Resp ctx') = apiHealthStatus healthy
      ∧ body (Resp ctx') = body (Resp ctx)
      ∧ Effects ctx' = Effects ctx ++ [LogError "Failed to encode data" err].
Proof.
  intros Hm Hp Hw healthy ctx'. subst ctx'.
  rewrite apiHealthHandler_match by done. cbn zeta. fold healthy. split.
  - destruct (EncodePretty _ _) as [dataBytes|err]; simpl.
    + destruct (Write dataBytes _).2; simpl;
        rewrite header_Write, header_WriteHeader; unfold jsonContentType; simpl;
        apply lookup_insert_eq.
    + rewrite header_WriteHeader. unfold jsonContentType; simpl.
      apply lookup_insert_eq.
  - intros err ->. simpl. rewrite WriteHeader_fresh by exact Hw. done.
Qed.

Lemma api_health_encoder_failure_witness :
  let hs := {| web := web_New; httpSrv := None; middlewares := [];
               Cfg := Sample.cfg; Listener := None; deps := Fixture.brokenEncoder |} in
  let ctx' := apiHealthHandler hs (Sample.request "GET" "/api/health") in
  status (Resp ctx') = 503 ∧ body (Resp ctx') = ""
  ∧ Effects ctx' = [LogError "Failed to encode data" (ErrExternal "json: unsupported value")].
Proof.
  intros hs ctx'.
  destruct (api_health_encoder_failure hs (Sample.request "GET" "/api/health"))
    as [_ Hfail]; [by left | reflexivity | reflexivity |].
  exact (Hfail _ eq_refl).
Defined.

Lemma handle_assembled (hs : HTTPServer) (mw : Middleware) :
  handle (addMiddlewaresAndStaticRoutes hs) mw = handle hs mw.
Proof. destruct mw; reflexivity. Qed.

Lemma pending_unwritten (c : Context) :
  healthzPending c → Written (Resp c) = false.
Proof. intros (_ & _ & Hs & _). by apply Written_false. Qed.

Lemma run_hands_on (hs : HTTPServer) (pre rest : list Middleware) (c : Context) :
  Forall (fun mw => handsOnHealthz (handle hs mw)) pre →
  healthzPending c →
  ∃ c1, run hs (pre ++ rest) c = ((run hs rest c1).1, pre ++ (run hs rest c1).2)
        ∧ healthzPending c1.
Proof.
  intros Hpre. revert c. induction Hpre as [|mw pre Hmw _ IH]; intros c Hc.
  - exists c. split; [|exact Hc]. cbn [app]. by destruct (run hs rest c).
  - destruct (IH (handle hs mw c) (Hmw c Hc)) as (c1 & Hrun & Hc1).
    exists c1. split; [|exact Hc1]. cbn [app run].
    rewrite (pending_unwritten _ (Hmw c Hc)), Hrun. reflexivity.
Qed.

(** X14.  Through the whole assembled pipeline: when each stage that the
    configuration puts in front of the interceptors leaves a pending
    [/healthz] request pending, a GET or HEAD for [/healthz] on a pristine
    response is answered 200 with body [Ok] by the health stage, which is
    the last stage to run; the database probe and everything registered
    behind the interceptors have no part in it.  What the stages in front
    do with any other request, serving files included, does not
    matter. *)
Theorem healthz_end_to_end (hs : HTTPServer) (c : Context) :
  handlers (web hs) = [] →
  Forall (fun mw => handsOnHealthz (handle hs mw)) (frontStages hs) →
  getOrHead (Method (Req c)) → URLPath (Req c) = "/healthz" →
  pristine (Resp c) →
  let r := serveRequest (addMiddlewaresAndStaticRoutes hs) c in
  status (Resp r.1) = 200 ∧ body (Resp r.1) = "Ok"
  ∧ r.2 = frontStages hs ++ [MHealthz].
Proof.
  intros Hfresh Hfront Hm Hp Hpr r. subst r. unfold serveRequest.
  rewrite pipeline_shape, Hfresh. cbn [app].
  destruct (run_hands_on (addMiddlewaresAndStaticRoutes hs) (frontStages hs)
              (livenessStages ++ backStages hs) c)
    as (c1 & -> & Hm1 & Hp1 & Hs1 & Hb1 & Hf1).
  { eapply Forall_impl; [exact Hfront|].
    intros mw Hmw. cbn beta. rewrite handle_assembled. exact Hmw. }
  { split; [exact Hm|]. split; [exact Hp|exact Hpr]. }
  unfold livenessStages. cbn [app run handle].
  rewrite healthzHandler_written by congruence. cbn [fst snd].
  rewrite healthzHandler_match by congruence.
  rewrite WriteHeader_fresh by (by apply Written_false). cbn.
  rewrite Hf1, Hb1. done.
Qed.

Lemma serveFiles_hands_on (dir : string) (opts : StaticOptions) :
  String.prefix (Fixture.mountPoint opts) "/healthz" = false →
  handsOnHealthz (Fixture.serveFiles dir opts).
Proof.
  intros Hout c Hc. unfold Fixture.serveFiles.
  destruct Hc as (Hm & Hp & Hpr). rewrite Hp, Hout, andb_false_r.
  split; [exact Hm|]. split; [exact Hp|exact Hpr].
Qed.

Lemma HeaderSet_hands_on (k v : string) :
  handsOnHealthz (withResp (HeaderSet k v)).
Proof. intros c Hc. exact Hc. Qed.

Lemma healthz_end_to_end_witness :
  let hs := Fixture.servingServer in
  let r := serveRequest (addMiddlewaresAndStaticRoutes hs)
             (Sample.request "HEAD" "/healthz") in
  let file := serveRequest (addMiddlewaresAndStaticRoutes hs)
                (Sample.request "GET" "/robots.txt") in
  (status (Resp r.1) = 200 ∧ body (Resp r.1) = "Ok"
   ∧ r.2 = frontStages hs ++ [MHealthz])
  ∧ (status (Resp file.1) = 200
     ∧ body (Resp file.1) = "file under public/robots.txt"
     ∧ length file.2 = 7%nat).
Proof.
  intros hs r file. split.
  - apply (healthz_end_to_end hs (Sample.request "HEAD" "/healthz")).
    + reflexivity.
    + unfold frontStages, hs. cbn [Fixture.servingServer Cfg deps Fixture.fullCfg
        setting.EnableGzip setting.ImageUploadProvider app].
      repeat (apply Forall_cons; split;
              [first [ apply HeaderSet_hands_on
                     | apply serveFiles_hands_on; reflexivity
                     | intros c Hc; exact Hc ]|]).
      apply Forall_nil. exact I.
    + right. reflexivity.
    + reflexivity.
    + split; [reflexivity|]. split; reflexivity.
  - split; [reflexivity|]. split; reflexivity.
Defined.

(** X15.  On an unwritten response each liveness request is answered by
    its own interceptor and by no other: the answer is what that
    interceptor alone makes of the request, the interceptors before it
    leave it alone, and the ones behind it do not run.  A request that
    none of them answers passes all three unchanged. *)
Theorem liveness_interceptors_do_not_overlap
    (hs : HTTPServer) (post : list Middleware) (c : Context) :
  Written (Resp c) = false →
  let r := run hs (livenessStages ++ post) c in
  (getOrHead (Method (Req c)) → URLPath (Req c) = "/healthz" →
     r = (healthzHandler hs c, [MHealthz]))
  ∧ (getOrHead (Method (Req c)) → URLPath (Req c) = "/api/health" →
     r = (apiHealthHandler hs c, [MHealthz; MApiHealth]))
  ∧ (metricsRequest hs c →
     (∀ rw req, Written (promhttp_ServeHTTP (deps hs) rw req) = true) →
     r = (metricsEndpoint hs c, [MHealthz; MApiHealth; MMetrics]))
  ∧ (¬ (getOrHead (Method (Req c))
        ∧ (URLPath (Req c) = "/healthz" ∨ URLPath (Req c) = "/api/health")) →
     ¬ metricsRequest hs c →
     r = ((run hs post c).1, livenessStages ++ (run hs post c).2)).
Proof.
  intros Hw r. subst r. unfold livenessStages. cbn [app run handle].
  split; [|split; [|split]].
  - intros Hm Hp. by rewrite healthzHandler_written.
  - intros Hm Hp.
    rewrite healthzHandler_passthrough by (rewrite Hp; intros [_ [=]]).
    rewrite Hw. by rewrite apiHealthHandler_written.
  - intros Hreq Hprom. destruct Hreq as (He & Hm & Hp).
    rewrite healthzHandler_passthrough by (rewrite Hp; intros [_ [=]]).
    rewrite Hw.
    rewrite apiHealthHandler_passthrough by (rewrite Hp; intros [_ [=]]).
    rewrite Hw. by rewrite metricsEndpoint_written.
  - intros Hno Hnm.
    rewrite healthzHandler_passthrough by tauto. rewrite Hw.
    rewrite apiHealthHandler_passthrough by tauto. rewrite Hw.
    rewrite metricsEndpoint_passthrough by done. rewrite Hw.
    by destruct (run hs post c).
Qed.

Lemma liveness_interceptors_do_not_overlap_witness :
  let hs := Sample.server Sample.cfg in
  let c := Sample.request "HEAD" "/api/health" in
  run hs (livenessStages ++ [MContextHandler]) c
  = (apiHealthHandler hs c, [MHealthz; MApiHealth]).
Proof.
  intros hs c.
  destruct (liveness_interceptors_do_not_overlap hs [MContextHandler] c eq_refl)
    as (_ & Hapi & _).
  apply Hapi; [by right | reflexivity].
Defined.
